(** * chain/core/asset: account reservation, change splitting, annotation

    A shallow embedding of [core/asset/account.go] and the properties of
    its specification.

    Layout:
    - machine integers ([uint64], [int64]) with their wrap-around;
    - the outcome of a Go call (value, [error], panic) and a state monad;
    - [math/rand] as an oracle tape;
    - [breakupChange], [NewAccountDestination], [Reserve],
      [LoadAccountInfo] translated from the source;
    - a deterministic fake of the collaborators, used to run the code;
    - the theorems. *)

From Stdlib Require Import ZArith List String Lia Bool.
From stdpp Require Import gmap strings list.

Local Open Scope Z_scope.

(* ===================================================================== *)
(** ** Machine integers *)
(* ===================================================================== *)

Definition two63 : Z := 9223372036854775808.
Definition two64 : Z := 18446744073709551616.

(** A Go [uint64] is a [Z] in [0, 2^64). *)
Definition is_uint64 (x : Z) : Prop := 0 <= x < two64.

(** Conversion to [uint64] (reduction modulo 2^64). *)
Definition uint64 (x : Z) : Z := x mod two64.

(** Conversion [int64(x)]: two's complement reinterpretation. *)
Definition int64 (x : Z) : Z := (x + two63) mod two64 - two63.

Definition uint64_add (a b : Z) : Z := uint64 (a + b).
Definition uint64_sub (a b : Z) : Z := uint64 (a - b).

Fixpoint sumZ (l : list Z) : Z :=
  match l with
  | [] => 0
  | x :: l' => x + sumZ l'
  end.

(* ===================================================================== *)
(** ** Errors *)
(* ===================================================================== *)

(** Modelled from the spec: the error taxonomy of the collaborators
    (section 7); the packages raising them are not part of this file. *)
Inductive ErrKind : Type :=
| InsufficientFunds
| ReservationConflict
| InvalidFilter
| AccountNotFound
| QuorumExceedsKeys
| ScriptConstructionFailed
| AllocationFailed
| IndexQueryFailed
| Cancelled.

(** Modelled from the spec: [chain/errors] is not part of this file.  An
    error is a root error of some kind, possibly wrapped with stage tags;
    wrapping keeps the root. *)
Inductive error : Type :=
| RootError (kind : ErrKind)
| WrapError (tag : string) (inner : error).

Definition errors_Wrap (err : error) (tag : string) : error := WrapError tag err.


(* ===================================================================== *)
(** ** Outcomes and the state monad *)
(* ===================================================================== *)

(** What a Go call does: it returns a value, returns a non-nil [error],
    or panics.  [Diverge] is what a fuelled loop yields when its fuel is
    used up; the termination theorem of [breakupChange] shows it never
    happens. *)
Inductive outcome (A : Type) : Type :=
| Ok (a : A)
| Err (e : error)
| Panic (msg : string)
| Diverge.

Arguments Ok {A} a.
Arguments Err {A} e.
Arguments Panic {A} msg.
Arguments Diverge {A}.

Definition M (S A : Type) : Type := S -> outcome A * S.

Definition ret {S A : Type} (a : A) : M S A := fun s => (Ok a, s).

Definition bind {S A B : Type} (m : M S A) (k : A -> M S B) : M S B :=
  fun s =>
    match m s with
    | (Ok a, s') => k a s'
    | (Err e, s') => (Err e, s')
    | (Panic msg, s') => (Panic msg, s')
    | (Diverge, s') => (Diverge, s')
    end.

Definition panic {S A : Type} (msg : string) : M S A := fun s => (Panic msg, s).
Definition diverge {S A : Type} : M S A := fun s => (Diverge, s).

Notation "'let*' x ':=' c1 'in' c2" := (bind c1 (fun x => c2))
  (at level 10, x pattern, c1 at level 100, c2 at level 200).

(** [for _, x := range xs { y, err := f(x); ...; ys = append(ys, y) }] *)
Fixpoint forEach {S A B : Type} (f : A -> M S B) (xs : list A) (acc : list B)
  : M S (list B) :=
  match xs with
  | [] => ret acc
  | x :: xs' => let* y := f x in forEach f xs' (acc ++ [y])
  end.

(* ===================================================================== *)
(** ** math/rand *)
(* ===================================================================== *)

(** The process-wide generator of [math/rand], as an oracle: a tape of raw
    draws and a cursor.  A call on [n > 0] consumes one draw and returns it
    reduced into [0, n), so every value of the documented range is
    reachable; a call on [n <= 0] panics, as in Go. *)
Record Rand : Type := { draws : nat -> Z; cursor : nat }.

Definition rand_draw (n : Z) : M Rand Z :=
  fun r => (Ok (draws r (cursor r) mod n),
            {| draws := draws r; cursor := S (cursor r) |}).

Definition rand_Intn (n : Z) : M Rand Z :=
  if n <=? 0 then panic "invalid argument to Intn"%string else rand_draw n.

Definition rand_Int63n (n : Z) : M Rand Z :=
  if n <=? 0 then panic "invalid argument to Int63n"%string else rand_draw n.

(* ===================================================================== *)
(** ** breakupChange *)
(* ===================================================================== *)

Inductive LoopStep : Type :=
| Continue (total : Z) (amounts : list Z)
| Break (total : Z) (amounts : list Z).

(** One evaluation of the loop condition
    [total > 1 && rand.Intn(2) == 0] followed, when it holds, by the body. *)
Definition breakupChange_step (total : Z) (amounts : list Z) : M Rand LoopStep :=
  if 1 <? total then
    let* coin := rand_Intn 2 in
    if coin =? 0 then
      let* r := rand_Int63n (int64 total) in
      let thisChange := uint64_add 1 (uint64 r) in
      ret (Continue (uint64_sub total thisChange) (amounts ++ [thisChange]))
    else ret (Break total amounts)
  else ret (Break total amounts).

Fixpoint breakupChange_loop (fuel : nat) (total : Z) (amounts : list Z)
  : M Rand (Z * list Z) :=
  match fuel with
  | O => diverge
  | S fuel' =>
      let* s := breakupChange_step total amounts in
      match s with
      | Continue total' amounts' => breakupChange_loop fuel' total' amounts'
      | Break total' amounts' => ret (total', amounts')
      end
  end.

Definition breakupChange (total : Z) : M Rand (list Z) :=
  let* ta := breakupChange_loop (S (Z.to_nat total)) total [] in
  let (total', amounts) := ta in
  if 0 <? total' then ret (amounts ++ [total']) else ret amounts.

(* ===================================================================== *)
(** ** Data model *)
(* ===================================================================== *)

(** [[]byte]; a nil slice is the empty list. *)
Definition bytes : Type := list Byte.byte.

(** [time.Duration] (nanoseconds). *)
Definition Duration : Type := Z.

(** [bc.AssetAmount]. *)
Record AssetAmount : Type := {
  AssetID : bytes;
  Amount : Z
}.

(** [bc.Outpoint]. *)
Record Outpoint : Type := {
  OutpointHash : bytes;
  OutpointIndex : Z
}.

Record AccountReserver : Type := {
  AccountID : string;
  TxHash : option bytes;      (* optional filter *)
  OutputIndex : option Z;     (* optional filter *)
  ClientToken : option string
}.

(** [utxodb.Source]: the fields the source file sets in its literal. *)
Record Source : Type := {
  SourceAssetID : bytes;
  SourceAmount : Z;
  SourceAccountID : string;
  SourceTxHash : option bytes;
  SourceOutputIndex : option Z;
  SourceClientToken : option string
}.

(** Modelled from the spec: [utxodb.UTXO], the reserved output (a ledger
    output with its account and control-program index), declared in
    package [utxodb]; the fields are those the source file reads. *)
Record UTXO : Type := {
  UTXOHash : bytes;
  UTXOIndex : Z;
  UTXOAssetID : bytes;
  UTXOAmount : Z;
  UTXOScript : bytes;
  UTXOAccountID : string;
  ControlProgramIndex : list Z
}.

(** Modelled from the spec: [utxodb.Change], a change bucket (asset,
    amount) of the reservation engine, declared in package [utxodb]. *)
Record Change : Type := {
  ChangeAssetID : bytes;
  ChangeAmount : Z
}.

(** Modelled from the spec: the account record returned by
    [accounts.Find] (identifier, extended public keys, quorum), declared
    outside this file. *)
Record Account : Type := {
  ID : string;
  XPubs : list string;
  Quorum : Z
}.

(** Modelled from the spec: the spend input built by [bc.NewSpendInput]
    from (outpoint, arguments, asset, amount, previous script, reference
    data); package [bc] is not part of this file. *)
Record TxInput : Type := {
  SpentHash : bytes;
  SpentIndex : Z;
  Arguments : bytes;
  InputAssetID : bytes;
  InputAmount : Z;
  PrevScript : bytes;
  ReferenceData : bytes
}.

Definition bc_NewSpendInput (txhash : bytes) (index : Z) (arguments : bytes)
    (assetID : bytes) (amount : Z) (script : bytes) (referenceData : bytes) : TxInput :=
  {| SpentHash := txhash; SpentIndex := index; Arguments := arguments;
     InputAssetID := assetID; InputAmount := amount; PrevScript := script;
     ReferenceData := referenceData |}.

(** A signer placeholder produced by [txbuilder.InputSigs]. *)
Record Signature : Type := {
  SigXPub : string;
  DerivationPath : list Z
}.

(** Modelled from the spec: [txbuilder.Input], the template input (asset,
    amount, and the witness components added to it: the signer
    placeholders with their quorum, and witness data); package
    [txbuilder] is not part of this file. *)
Inductive WitnessComponent : Type :=
| SignatureWitness (sigs : list Signature) (quorum : Z) (program : bytes)
| DataWitness (data : bytes).

Record Input : Type := {
  TemplateAssetID : bytes;
  TemplateAmount : Z;
  WitnessComponents : list WitnessComponent
}.

Definition emptyInput : Input :=
  {| TemplateAssetID := []; TemplateAmount := 0; WitnessComponents := [] |}.

Definition AddWitnessSigs (inp : Input) (sigs : list Signature) (nreq : Z)
    (program : bytes) : Input :=
  {| TemplateAssetID := TemplateAssetID inp; TemplateAmount := TemplateAmount inp;
     WitnessComponents := WitnessComponents inp ++ [SignatureWitness sigs nreq program] |}.

Definition AddWitnessData (inp : Input) (data : bytes) : Input :=
  {| TemplateAssetID := TemplateAssetID inp; TemplateAmount := TemplateAmount inp;
     WitnessComponents := WitnessComponents inp ++ [DataWitness data] |}.

Record ReserveResultItem : Type := {
  ItemTxInput : TxInput;
  TemplateInput : Input
}.

Record AccountReceiver : Type := {
  controlProgram : bytes;
  accountID : string
}.

(** [txbuilder.Receiver]: something exposing a spendable script. *)
Class Receiver (R : Type) : Type := { PKScript : R -> bytes }.

#[export] Instance AccountReceiver_Receiver : Receiver AccountReceiver :=
  {| PKScript := fun receiver => controlProgram receiver |}.

Definition NewAccountReceiver (controlProgram : bytes) (accountID : string)
  : AccountReceiver :=
  {| controlProgram := controlProgram; accountID := accountID |}.

(** Modelled from the spec: [txbuilder.Destination] (asset amount,
    optional metadata, receiver), declared in package [txbuilder]; every
    receiver built here is an [AccountReceiver]. *)
Record Destination : Type := {
  DestAssetAmount : AssetAmount;
  Metadata : bytes;
  DestReceiver : AccountReceiver
}.

Record ReserveResult : Type := {
  Items : list ReserveResultItem;
  ResultChange : list Destination
}.

(** Modelled from the spec: [state.Output], a ledger output (outpoint,
    asset amount, control program, reference data), declared in package
    [state]. *)
Record Output : Type := {
  OutputOutpoint : Outpoint;
  OutputAssetAmount : AssetAmount;
  ControlProgram : bytes;
  OutputReferenceData : bytes
}.

(** Modelled from the spec: the annotated [output], a ledger output with
    its account and the fixed-size key-index array; the type is declared
    in another file of the package. *)
Record output : Type := {
  AnnotatedOutput : Output;
  OutputAccountID : string;
  keyIndex : list Z
}.

(** A row of the account index: [signer_id], [key_index], [control_program]. *)
Record Row : Type := {
  RowAccountID : string;
  RowKeyIndex : list Z;
  RowProgram : bytes
}.

Inductive KeySpace : Type := AssetKeySpace | AccountKeySpace.

(** Byte-for-byte equality of two byte strings. *)
Definition bytes_eqb (a b : bytes) : bool :=
  String.eqb (string_of_list_byte a) (string_of_list_byte b).

(** Go's [copy(dst, src)]: overwrite the first [min(len dst, len src)]
    cells of [dst]. *)
Definition go_copy {A : Type} (dst src : list A) : list A :=
  firstn (length dst) src ++ skipn (length src) dst.

(* ===================================================================== *)
(** ** Collaborators *)
(* ===================================================================== *)

(** The packages the file calls and that live outside it: the reservation
    engine ([utxodb]), the account directory ([accounts]), key derivation
    ([signers], [hd25519]), the script builder ([txscript]), the signer
    placeholders ([txbuilder.InputSigs]) and the query layer ([pg]).
    Stateful calls run on the database state [DB].

    [pg_ForQueryRows q args db] gives the rows handed to the callback, in
    order, and the error the call finally returns, if any.
    [keyIndexLen] is the length of the key-index array of [output]. *)
Class Collaborators : Type := {
  DB : Type;
  utxodb_Reserve : list Source -> Duration -> M DB (list UTXO * list Change);
  utxodb_Cancel : list Outpoint -> M DB unit;
  accounts_Find : string -> M DB Account;
  accounts_CreateControlProgram : string -> M DB bytes;
  signers_Path : Account -> KeySpace -> list Z -> list Z;
  hd25519_DeriveXPubs : list string -> list Z -> list string;
  hd25519_XPubKeys : list string -> list bytes;
  txscript_MultiSigScript : list bytes -> Z -> outcome bytes;
  txbuilder_InputSigs : list string -> list Z -> list Signature;
  pg_ForQueryRows : string -> list bytes -> DB -> list Row * option error;
  keyIndexLen : nat
}.

(** The state a call runs in: the database and the shared generator. *)
Record World `{Collaborators} : Type := {
  world_db : DB;
  world_rng : Rand
}.

Section Asset.
Context `{C : Collaborators}.

Definition liftDB {A : Type} (m : M DB A) : M World A :=
  fun w => let (o, db') := m (world_db w) in
           (o, {| world_db := db'; world_rng := world_rng w |}).

Definition liftRand {A : Type} (m : M Rand A) : M World A :=
  fun w => let (o, rng') := m (world_rng w) in
           (o, {| world_db := world_db w; world_rng := rng' |}).

Definition liftOutcome {S A : Type} (o : outcome A) : M S A := fun s => (o, s).

(** [if err != nil { return nil, errors.Wrap(err, tag) }] *)
Definition wrapErr {S A : Type} (tag : string) (m : M S A) : M S A :=
  fun s =>
    match m s with
    | (Err e, s') => (Err (errors_Wrap e tag), s')
    | r => r
    end.

(* ------------------------------------------------------------------- *)
(** *** NewAccountSource, NewAccountDestination, CancelReservations *)

Definition NewAccountSource (assetAmount : AssetAmount) (accountID : string)
    (txHash : option bytes) (outputIndex : option Z) (clientToken : option string)
  : AssetAmount * AccountReserver :=
  (assetAmount,
   {| AccountID := accountID; TxHash := txHash; OutputIndex := outputIndex;
      ClientToken := clientToken |}).

Definition NewAccountDestination (assetAmount : AssetAmount) (accountID : string)
    (metadata : bytes) : M DB Destination :=
  let* acp := accounts_CreateControlProgram accountID in
  ret {| DestAssetAmount := assetAmount;
         Metadata := metadata;
         DestReceiver := NewAccountReceiver acp accountID |}.

Definition CancelReservations (outpoints : list Outpoint) : M DB unit :=
  utxodb_Cancel outpoints.

(* ------------------------------------------------------------------- *)
(** *** Reserve *)

(** The body of the loop over the reserved outputs. *)
Definition reserveItem (r : UTXO) : M DB ReserveResultItem :=
  let txInput := bc_NewSpendInput (UTXOHash r) (UTXOIndex r) [] (UTXOAssetID r)
                                  (UTXOAmount r) (UTXOScript r) [] in
  let templateInput := emptyInput in
  let* inputAccount := wrapErr "get account info" (accounts_Find (UTXOAccountID r)) in
  let path := signers_Path inputAccount AccountKeySpace (ControlProgramIndex r) in
  let derivedXPubs := hd25519_DeriveXPubs (XPubs inputAccount) path in
  let derivedPKs := hd25519_XPubKeys derivedXPubs in
  let* redeemScript :=
    wrapErr "compute redeem script"
      (liftOutcome (txscript_MultiSigScript derivedPKs (Quorum inputAccount))) in
  let templateInput :=
    {| TemplateAssetID := UTXOAssetID r; TemplateAmount := UTXOAmount r;
       WitnessComponents := WitnessComponents templateInput |} in
  let templateInput :=
    AddWitnessSigs templateInput
      (txbuilder_InputSigs (XPubs inputAccount) path) (Quorum inputAccount) [] in
  let templateInput := AddWitnessData templateInput redeemScript in
  ret {| ItemTxInput := txInput; TemplateInput := templateInput |}.

(** The body of the loop over the change amounts. *)
Definition changeDestination (reserver : AccountReserver) (assetAmount : AssetAmount)
    (changeAmount : Z) : M DB Destination :=
  wrapErr "creating change destination"
    (NewAccountDestination {| AssetID := AssetID assetAmount; Amount := changeAmount |}
                           (AccountID reserver) []).

(** [if len(change) > 0 { ... }] *)
Definition reserveChange (reserver : AccountReserver) (assetAmount : AssetAmount)
    (change : list Change) : M World (list Destination) :=
  match change with
  | [] => ret []
  | change0 :: _ =>
      let* changeAmounts := liftRand (breakupChange (ChangeAmount change0)) in
      liftDB (forEach (changeDestination reserver assetAmount) changeAmounts [])
  end.

(** What [Reserve] does with the engine's answer. *)
Definition reserveResult (reserver : AccountReserver) (assetAmount : AssetAmount)
    (reserved : list UTXO) (change : list Change) : M World ReserveResult :=
  let* items := liftDB (forEach reserveItem reserved []) in
  let* dests := reserveChange reserver assetAmount change in
  ret {| Items := items; ResultChange := dests |}.

Definition utxodbSource (reserver : AccountReserver) (assetAmount : AssetAmount)
  : Source :=
  {| SourceAssetID := AssetID assetAmount;
     SourceAmount := Amount assetAmount;
     SourceAccountID := AccountID reserver;
     SourceTxHash := TxHash reserver;
     SourceOutputIndex := OutputIndex reserver;
     SourceClientToken := ClientToken reserver |}.

Definition Reserve (reserver : AccountReserver) (assetAmount : AssetAmount)
    (ttl : Duration) : M World ReserveResult :=
  let utxodbSources := [utxodbSource reserver assetAmount] in
  let* rc := liftDB (utxodb_Reserve utxodbSources ttl) in
  let (reserved, change) := rc in
  reserveResult reserver assetAmount reserved change.

(* ------------------------------------------------------------------- *)
(** *** LoadAccountInfo *)

Definition scriptStr (program : bytes) : string := string_of_list_byte program.

Definition groupOutput (m : gmap string (list Output)) (out : Output)
  : gmap string (list Output) :=
  <[scriptStr (ControlProgram out) :=
      default [] (m !! scriptStr (ControlProgram out)) ++ [out]]> m.

Definition annotate (row : Row) (out : Output) : output :=
  {| AnnotatedOutput := out;
     OutputAccountID := RowAccountID row;
     keyIndex := go_copy (repeat 0 keyIndexLen) (RowKeyIndex row) |}.

(** The callback given to [pg.ForQueryRows]. *)
Definition annotateRow (outsByScript : gmap string (list Output))
    (result : list output) (row : Row) : list output :=
  result ++ map (annotate row)
                (default [] (outsByScript !! scriptStr (RowProgram row))).

Definition accountQuery : string :=
  "SELECT signer_id, key_index(key_index), control_program FROM account_control_programs WHERE control_program IN (SELECT unnest($1::bytea[]))".

(** The first loop: group the outputs by control program. *)
Definition groupOutputs (outs : list Output) : gmap string (list Output) :=
  fold_left groupOutput outs ∅.

(** The second loop: the distinct control programs.  Go leaves the order
    of [range] over a map unspecified; the order of [map_to_list] stands
    for it, and no theorem depends on it. *)
Definition scriptsOf (outsByScript : gmap string (list Output)) : list bytes :=
  map (fun kv => list_byte_of_string (fst kv)) (map_to_list outsByScript).

Definition LoadAccountInfo (outs : list Output) : M DB (list output) :=
  fun db =>
    let outsByScript := groupOutputs outs in
    let scripts := scriptsOf outsByScript in
    let result := [] in
    let (rows, err) := pg_ForQueryRows accountQuery scripts db in
    let result := fold_left (annotateRow outsByScript) rows result in
    match err with
    | Some e => (Err e, db)
    | None => (Ok result, db)
    end.

(* ------------------------------------------------------------------- *)
(** *** Groups of outputs, for the statements about LoadAccountInfo *)

(** The outputs of [outs] whose control program is [p], in input order. *)
Definition group (p : bytes) (outs : list Output) : list Output :=
  List.filter (fun out => bytes_eqb p (ControlProgram out)) outs.

(** Every returned row annotating the whole group of its program. *)
Definition annotateRows (outs : list Output) (rows : list Row) : list output :=
  flat_map (fun row => map (annotate row) (group (RowProgram row) outs)) rows.

End Asset.

(* ===================================================================== *)
(** ** A deterministic fake of the collaborators *)
(* ===================================================================== *)

Module Fake.

(** The fake database scripts the engine's answer and holds the account
    directory, the control-program counter and the account index. *)
Record FakeDB : Type := {
  engineReply : outcome (list UTXO * list Change);
  directory : list Account;
  nextProgram : nat;
  allocationLimit : nat;
  indexRows : list Row;
  indexError : option error
}.

Definition reserve (sources : list Source) (ttl : Duration)
  : M FakeDB (list UTXO * list Change) :=
  fun db => (engineReply db, db).

Definition cancel (outpoints : list Outpoint) : M FakeDB unit :=
  fun db => (Ok tt, db).

Definition find (id : string) : M FakeDB Account :=
  fun db =>
    match List.find (fun a => String.eqb (ID a) id) (directory db) with
    | Some a => (Ok a, db)
    | None => (Err (RootError AccountNotFound), db)
    end.

Definition createControlProgram (id : string) : M FakeDB bytes :=
  fun db =>
    if (allocationLimit db <=? nextProgram db)%nat
    then (Err (RootError AllocationFailed), db)
    else (Ok (repeat Byte.x51 (S (nextProgram db))),
          {| engineReply := engineReply db; directory := directory db;
             nextProgram := S (nextProgram db);
             allocationLimit := allocationLimit db;
             indexRows := indexRows db; indexError := indexError db |}).

Definition path (a : Account) (ks : KeySpace) (idx : list Z) : list Z :=
  match ks with
  | AssetKeySpace => 0 :: idx
  | AccountKeySpace => 1 :: idx
  end.

Definition deriveXPubs (xpubs : list string) (p : list Z) : list string :=
  map (fun x => String.append x "'") xpubs.

Definition xpubKeys (xpubs : list string) : list bytes :=
  map list_byte_of_string xpubs.

Definition multiSigScript (pks : list bytes) (quorum : Z) : outcome bytes :=
  if Z.of_nat (length pks) <? quorum
  then Err (RootError QuorumExceedsKeys)
  else Ok (concat pks).

Definition inputSigs (xpubs : list string) (p : list Z) : list Signature :=
  map (fun x => {| SigXPub := x; DerivationPath := p |}) xpubs.

Definition forQueryRows (q : string) (scripts : list bytes) (db : FakeDB)
  : list Row * option error :=
  (List.filter (fun row => existsb (bytes_eqb (RowProgram row)) scripts) (indexRows db),
   indexError db).

Definition collaborators : Collaborators :=
  {| DB := FakeDB;
     utxodb_Reserve := reserve;
     utxodb_Cancel := cancel;
     accounts_Find := find;
     accounts_CreateControlProgram := createControlProgram;
     signers_Path := path;
     hd25519_DeriveXPubs := deriveXPubs;
     hd25519_XPubKeys := xpubKeys;
     txscript_MultiSigScript := multiSigScript;
     txbuilder_InputSigs := inputSigs;
     pg_ForQueryRows := forQueryRows;
     keyIndexLen := 2 |}.

Definition tape (l : list Z) : Rand := {| draws := fun i => nth i l 1; cursor := 0 |}.

Definition usd : bytes := list_byte_of_string "USD".
Definition acc1 : Account := {| ID := "acc1"; XPubs := ["xpub1"; "xpub2"]; Quorum := 2 |}.

Definition utxo200 : UTXO :=
  {| UTXOHash := list_byte_of_string "tx0"; UTXOIndex := 0; UTXOAssetID := usd;
     UTXOAmount := 200; UTXOScript := list_byte_of_string "script0";
     UTXOAccountID := "acc1"; ControlProgramIndex := [0; 5] |}.

Definition bucket (amount : Z) : Change :=
  {| ChangeAssetID := usd; ChangeAmount := amount |}.

Definition dbWith (reply : outcome (list UTXO * list Change)) : FakeDB :=
  {| engineReply := reply; directory := [acc1]; nextProgram := 0;
     allocationLimit := 100; indexRows := []; indexError := None |}.

Definition worldWith (reply : outcome (list UTXO * list Change)) (draws : list Z)
  : @World collaborators :=
  @Build_World collaborators (dbWith reply) (tape draws).

Definition reserver1 : AccountReserver :=
  {| AccountID := "acc1"; TxHash := None; OutputIndex := None; ClientToken := None |}.

Definition usd150 : AssetAmount := {| AssetID := usd; Amount := 150 |}.

Definition utxo150 : UTXO :=
  {| UTXOHash := list_byte_of_string "tx1"; UTXOIndex := 1; UTXOAssetID := usd;
     UTXOAmount := 150; UTXOScript := list_byte_of_string "script1";
     UTXOAccountID := "acc1"; ControlProgramIndex := [0; 6] |}.

(** The scenario of the specification: one output of 200 for a request
    of 150, change 50. *)
Definition scenario : @World collaborators :=
  worldWith (Ok ([utxo200], [bucket 50])) [0; 19; 0; 4; 1].

(** An engine that reports the excess of 50 in two buckets. *)
Definition twoBuckets : @World collaborators :=
  worldWith (Ok ([utxo200], [bucket 30; bucket 20])) [1].

(** An engine that reports an exact match with an empty-valued bucket. *)
Definition zeroBucket : @World collaborators :=
  worldWith (Ok ([utxo150], [bucket 0])) [1].

Definition emptyResult : ReserveResult := {| Items := []; ResultChange := [] |}.

Definition resultOf (o : outcome ReserveResult) : ReserveResult :=
  match o with
  | Ok res => res
  | _ => emptyResult
  end.

Definition scenarioResult : ReserveResult :=
  resultOf (fst (@Reserve collaborators reserver1 usd150 60 scenario)).

Definition twoBucketsResult : ReserveResult :=
  resultOf (fst (@Reserve collaborators reserver1 usd150 60 twoBuckets)).

Definition zeroBucketResult : ReserveResult :=
  resultOf (fst (@Reserve collaborators reserver1 usd150 60 zeroBucket)).

(** The annotation scenario of the specification: outputs A and B on
    program P, output C on program Q; only P is indexed, to account
    acc1 with key index [0, 5]. *)
Definition progP : bytes := list_byte_of_string "P".
Definition progQ : bytes := list_byte_of_string "Q".

Definition ledgerOutput (name : string) (program : bytes) : Output :=
  {| OutputOutpoint := {| OutpointHash := list_byte_of_string name; OutpointIndex := 0 |};
     OutputAssetAmount := {| AssetID := usd; Amount := 10 |};
     ControlProgram := program;
     OutputReferenceData := [] |}.

Definition outA : Output := ledgerOutput "A" progP.
Definition outB : Output := ledgerOutput "B" progP.
Definition outC : Output := ledgerOutput "C" progQ.

Definition rowP : Row :=
  {| RowAccountID := "acc1"; RowKeyIndex := [0; 5]; RowProgram := progP |}.

Definition indexDB : FakeDB :=
  {| engineReply := Err (RootError InsufficientFunds); directory := [acc1];
     nextProgram := 0; allocationLimit := 100;
     indexRows := [rowP]; indexError := None |}.

Definition annotatedOf (o : outcome (list output)) : list output :=
  match o with
  | Ok result => result
  | _ => []
  end.

Definition indexResult : list output :=
  annotatedOf (fst (@LoadAccountInfo collaborators [outA; outB; outC] indexDB)).



(** A reserved output whose account is not in the directory. *)
Definition utxoOrphan : UTXO :=
  {| UTXOHash := list_byte_of_string "tx2"; UTXOIndex := 2; UTXOAssetID := usd;
     UTXOAmount := 40; UTXOScript := list_byte_of_string "script2";
     UTXOAccountID := "nobody"; ControlProgramIndex := [0; 7] |}.

Definition orphaned : @World collaborators :=
  worldWith (Ok ([utxo200; utxoOrphan; utxo150], [bucket 50])) [0; 19; 0; 4; 1].

Definition itemsOf (o : outcome (list ReserveResultItem)) : list ReserveResultItem :=
  match o with
  | Ok items => items
  | _ => []
  end.

(** An engine whose change bucket is 2^63. *)
Definition hugeBucket : @World collaborators :=
  worldWith (Ok ([utxo200], [bucket two63])) [0].

(** An engine that reports no change. *)
Definition exact : @World collaborators :=
  worldWith (Ok ([utxo150], [])) [0; 19].

Definition exactResult : ReserveResult :=
  resultOf (fst (@Reserve collaborators reserver1 usd150 60 exact)).

Definition inputAmounts (res : ReserveResult) : list Z :=
  map (fun item => InputAmount (ItemTxInput item)) (Items res).

Definition changeAmounts (res : ReserveResult) : list Z :=
  map (fun d => Amount (DestAssetAmount d)) (ResultChange res).

End Fake.

(* ===================================================================== *)
(** ** Monad and loop lemmas *)
(* ===================================================================== *)

Lemma bind_Ok {S A B : Type} (m : M S A) (k : A -> M S B) s b s' :
  bind m k s = (Ok b, s') ->
  exists a s1, m s = (Ok a, s1) /\ k a s1 = (Ok b, s').
Proof.
  unfold bind. destruct (m s) as [[a | e | msg | ] s1]; intros H;
    try discriminate. eauto.
Qed.

Lemma bind_Err {S A B : Type} (m : M S A) (k : A -> M S B) s e s' :
  bind m k s = (Err e, s') ->
  m s = (Err e, s') \/ exists a s1, m s = (Ok a, s1) /\ k a s1 = (Err e, s').
Proof.
  unfold bind. destruct (m s) as [[a | e0 | msg | ] s1]; intros H;
    try discriminate; [right; eauto | left; congruence].
Qed.

Lemma wrapErr_Ok {S A : Type} tag (m : M S A) s a s' :
  wrapErr tag m s = (Ok a, s') -> m s = (Ok a, s').
Proof.
  unfold wrapErr. destruct (m s) as [[a0 | e | msg | ] s1]; intros H;
    try discriminate; exact H.
Qed.

Lemma wrapErr_Err {S A : Type} tag (m : M S A) s e' s' :
  wrapErr tag m s = (Err e', s') ->
  exists e, m s = (Err e, s') /\ e' = errors_Wrap e tag.
Proof.
  unfold wrapErr. destruct (m s) as [[a0 | e | msg | ] s1]; intros H;
    try discriminate. inversion H; subst. eauto.
Qed.

Lemma forEach_Ok {S A B : Type} (f : A -> M S B) xs :
  forall acc s ys s',
    forEach f xs acc s = (Ok ys, s') ->
    exists zs, ys = acc ++ zs /\
               Forall2 (fun x z => exists s1 s2, f x s1 = (Ok z, s2)) xs zs.
Proof.
  induction xs as [| x xs IH]; intros acc s ys s' H; simpl in H.
  - inversion H; subst. exists []. split; [by rewrite app_nil_r | constructor].
  - apply bind_Ok in H as (y & s1 & Hy & Hrest).
    apply IH in Hrest as (zs & -> & Hall).
    exists (y :: zs). split; [by rewrite <- app_assoc |].
    constructor; eauto.
Qed.


Lemma sumZ_app l1 l2 : sumZ (l1 ++ l2) = sumZ l1 + sumZ l2.
Proof. induction l1 as [| x l1 IH]; simpl; lia. Qed.

(* ===================================================================== *)
(** ** breakupChange: the loop invariant *)
(* ===================================================================== *)

Lemma int64_small t : 0 <= t < two63 -> int64 t = t.
Proof.
  intros H. unfold int64, two64, two63 in *.
  rewrite Z.mod_small; lia.
Qed.

Lemma int64_large t : two63 <= t < two64 -> int64 t = t - two64.
Proof.
  intros H. unfold int64, two64, two63 in *.
  replace (t + 9223372036854775808)
    with ((t - 9223372036854775808) + 1 * 18446744073709551616) by lia.
  rewrite Z.mod_add by lia. rewrite Z.mod_small; lia.
Qed.

Lemma uint64_small x : 0 <= x < two64 -> uint64 x = x.
Proof. intros H. unfold uint64. apply Z.mod_small; exact H. Qed.

Lemma rand_Intn_two r :
  rand_Intn 2 r = (Ok (draws r (cursor r) mod 2),
                   {| draws := draws r; cursor := S (cursor r) |}).
Proof. reflexivity. Qed.

Lemma rand_Int63n_pos n r :
  0 < n ->
  rand_Int63n n r = (Ok (draws r (cursor r) mod n),
                     {| draws := draws r; cursor := S (cursor r) |}).
Proof.
  intros H. unfold rand_Int63n. destruct (n <=? 0) eqn:Hle; [| reflexivity].
  apply Z.leb_le in Hle. lia.
Qed.

Lemma rand_Int63n_nonpos n r :
  n <= 0 -> rand_Int63n n r = (Panic "invalid argument to Int63n", r).
Proof.
  intros H. unfold rand_Int63n. destruct (n <=? 0) eqn:Hle; [reflexivity |].
  apply Z.leb_gt in Hle. lia.
Qed.

(** What one turn of the loop does to [total] and [amounts]. *)
Lemma breakupChange_step_spec total amounts r :
  is_uint64 total ->
  match breakupChange_step total amounts r with
  | (Ok (Continue total' amounts'), _) =>
      1 < total < two63 /\
      exists thisChange, 1 <= thisChange <= total /\
                         total' = total - thisChange /\
                         amounts' = amounts ++ [thisChange]
  | (Ok (Break total' amounts'), _) => total' = total /\ amounts' = amounts
  | (Panic _, _) => two63 <= total
  | _ => False
  end.
Proof.
  intros [Hlo Hhi]. unfold breakupChange_step.
  destruct (1 <? total) eqn:Hgt; [| simpl; auto].
  apply Z.ltb_lt in Hgt.
  unfold bind. rewrite rand_Intn_two.
  destruct (_ mod 2 =? 0); [| simpl; auto].
  destruct (Z_lt_le_dec total two63) as [Hsmall | Hbig].
  - rewrite int64_small by lia.
    rewrite rand_Int63n_pos by lia. unfold ret.
    set (x := draws _ _ mod total).
    assert (Hx : 0 <= x < total) by (apply Z.mod_pos_bound; lia).
    assert (Htc : uint64_add 1 (uint64 x) = 1 + x).
    { unfold uint64_add. rewrite (uint64_small x) by (unfold two64, two63 in *; lia).
      apply uint64_small. unfold two64, two63 in *; lia. }
    rewrite Htc. split; [lia |].
    exists (1 + x). split; [lia |]. split; [| reflexivity].
    unfold uint64_sub. apply uint64_small. unfold two64, two63 in *; lia.
  - rewrite int64_large by (split; [exact Hbig | exact Hhi]).
    rewrite rand_Int63n_nonpos by lia. exact Hbig.
Qed.

(** The invariant of the loop: [amounts] grows by positive pieces whose
    sum is what [total] lost, one piece per unit at least. *)
Lemma breakupChange_loop_spec fuel :
  forall total amounts r,
    is_uint64 total ->
    (Z.to_nat total < fuel)%nat ->
    match breakupChange_loop fuel total amounts r with
    | (Ok (total', amounts'), _) =>
        exists pieces,
          amounts' = amounts ++ pieces /\
          Forall (fun c => 1 <= c) pieces /\
          sumZ pieces + total' = total /\
          0 <= total' /\
          Z.of_nat (length pieces) <= total - total' /\
          (1 <= total -> 1 <= total' \/ pieces <> [])
    | (Panic _, _) => two63 <= total
    | _ => False
    end.
Proof.
  induction fuel as [| fuel IH]; intros total amounts r Hu Hfuel; [lia |].
  simpl. unfold bind at 1.
  pose proof (breakupChange_step_spec total amounts r Hu) as Hstep.
  destruct (breakupChange_step total amounts r) as [[[t' a' | t' a'] | e | msg | ] r1];
    try contradiction; try exact Hstep.
  - destruct Hstep as (Hrange & c & Hc & -> & ->).
    assert (Hu' : is_uint64 (total - c)) by (unfold is_uint64 in *; lia).
    specialize (IH (total - c) (amounts ++ [c]) r1 Hu' ltac:(lia)).
    destruct (breakupChange_loop fuel (total - c) (amounts ++ [c]) r1)
      as [[[t2 a2] | e | msg | ] r2]; try contradiction.
    + destruct IH as (pieces & -> & Hpos & Hsum & Ht2 & Hlen & _).
      exists (c :: pieces). rewrite <- app_assoc. split; [reflexivity |].
      split; [constructor; [lia | exact Hpos] |].
      simpl sumZ. simpl length. split; [lia |]. split; [lia |].
      split; [lia |]. intros _. right. discriminate.
    + unfold two63 in *. lia.
  - destruct Hstep as [-> ->]. unfold ret. exists [].
    rewrite app_nil_r. simpl. unfold is_uint64 in Hu.
    split; [reflexivity |]. split; [constructor |]. split; [lia |].
    split; [lia |]. split; [lia |]. intros H. left. exact H.
Qed.

(** [breakupChange] on a [uint64]: it returns positive pieces summing to
    [total], at most [max total 1] of them and at least one when
    [total >= 1]; or it panics, which needs [total >= 2^63]. *)
Lemma breakupChange_spec total r :
  is_uint64 total ->
  match breakupChange total r with
  | (Ok amounts, _) =>
      Forall (fun c => 1 <= c) amounts /\
      sumZ amounts = total /\
      Z.of_nat (length amounts) <= Z.max total 1 /\
      (1 <= total -> amounts <> [])
  | (Panic _, _) => two63 <= total
  | _ => False
  end.
Proof.
  intros Hu. unfold breakupChange, bind.
  pose proof (breakupChange_loop_spec (S (Z.to_nat total)) total [] r Hu ltac:(lia)) as H.
  destruct (breakupChange_loop (S (Z.to_nat total)) total [] r)
    as [[[t' a'] | e | msg | ] r1]; try contradiction; try exact H.
  destruct H as (pieces & -> & Hpos & Hsum & Ht & Hlen & Hne).
  change ([] ++ pieces) with pieces.
  destruct (0 <? t') eqn:Hpos'; unfold ret.
  - apply Z.ltb_lt in Hpos'. split.
    + apply Forall_app. split; [exact Hpos | constructor; [lia | constructor]].
    + rewrite sumZ_app, length_app, Nat2Z.inj_add.
      change (sumZ [t']) with (t' + 0). change (Z.of_nat (length [t'])) with 1.
      split; [lia |]. split; [lia |].
      intros _ Heq. apply app_eq_nil in Heq as [_ Heq]. discriminate.
  - apply Z.ltb_ge in Hpos'. split; [exact Hpos |]. split; [lia |]. split; [lia |].
    intros H1. destruct (Hne H1) as [Hbad | Hok]; [lia | exact Hok].
Qed.

Lemma breakupChange_zero r : breakupChange 0 r = (Ok [], r).
Proof. reflexivity. Qed.

Lemma breakupChange_loop_fuel fuel :
  forall total amounts r fuel',
    fst (breakupChange_loop fuel total amounts r) <> Diverge ->
    (fuel <= fuel')%nat ->
    breakupChange_loop fuel' total amounts r = breakupChange_loop fuel total amounts r.
Proof.
  induction fuel as [| fuel IH]; intros total amounts r fuel' Hnd Hle.
  - simpl in Hnd. contradiction.
  - destruct fuel' as [| fuel']; [lia |].
    simpl in *. unfold bind in *.
    destruct (breakupChange_step total amounts r) as [[[t' a' | t' a'] | e | msg | ] r1];
      try reflexivity.
    apply IH; [exact Hnd | lia].
Qed.




(** Below 2^63 the call always returns. *)
Lemma breakupChange_returns total r :
  0 <= total < two63 ->
  exists amounts r', breakupChange total r = (Ok amounts, r').
Proof.
  intros H.
  assert (Hu : is_uint64 total) by (unfold is_uint64, two64, two63 in *; lia).
  pose proof (breakupChange_spec total r Hu) as Hs.
  destruct (breakupChange total r) as [[amounts | e | msg | ] r']; try contradiction.
  - eauto.
  - lia.
Qed.

Lemma breakupChange_one r : breakupChange 1 r = (Ok [1], r).
Proof. reflexivity. Qed.

(** From 2^63 up, a first coin flip asking for a split makes the call
    panic. *)
Lemma breakupChange_panics_high total r :
  two63 <= total < two64 ->
  draws r (cursor r) mod 2 = 0 ->
  fst (breakupChange total r) = Panic "invalid argument to Int63n".
Proof.
  intros Hrange Hcoin. unfold breakupChange, bind.
  cbn [breakupChange_loop]. unfold bind, breakupChange_step.
  destruct (1 <? total) eqn:Hgt; [| apply Z.ltb_ge in Hgt; unfold two63 in *; lia].
  unfold bind. rewrite rand_Intn_two, Hcoin. cbn [Z.eqb].
  rewrite rand_Int63n_nonpos; [reflexivity |].
  rewrite int64_large by exact Hrange. lia.
Qed.

(* ===================================================================== *)
(** ** Reserve and LoadAccountInfo: how the calls unfold *)
(* ===================================================================== *)

Section Unfolding.
Context `{C : Collaborators}.

Lemma NewAccountDestination_Ok assetAmount accountID metadata db d db' :
  NewAccountDestination assetAmount accountID metadata db = (Ok d, db') ->
  exists acp,
    accounts_CreateControlProgram accountID db = (Ok acp, db') /\
    d = {| DestAssetAmount := assetAmount; Metadata := metadata;
           DestReceiver := NewAccountReceiver acp accountID |}.
Proof.
  unfold NewAccountDestination. intros H.
  apply bind_Ok in H as (acp & db1 & Hacp & Hret).
  unfold ret in Hret. inversion Hret; subst. eauto.
Qed.


Lemma reserveItem_Ok r db item db' :
  reserveItem r db = (Ok item, db') ->
  exists inputAccount redeemScript,
    accounts_Find (UTXOAccountID r) db = (Ok inputAccount, db') /\
    let path := signers_Path inputAccount AccountKeySpace (ControlProgramIndex r) in
    txscript_MultiSigScript
      (hd25519_XPubKeys (hd25519_DeriveXPubs (XPubs inputAccount) path))
      (Quorum inputAccount) = Ok redeemScript /\
    item =
      {| ItemTxInput :=
           bc_NewSpendInput (UTXOHash r) (UTXOIndex r) [] (UTXOAssetID r)
                            (UTXOAmount r) (UTXOScript r) [];
         TemplateInput :=
           {| TemplateAssetID := UTXOAssetID r;
              TemplateAmount := UTXOAmount r;
              WitnessComponents :=
                [SignatureWitness (txbuilder_InputSigs (XPubs inputAccount) path)
                                  (Quorum inputAccount) [];
                 DataWitness redeemScript] |} |}.
Proof.
  unfold reserveItem. intros H.
  apply bind_Ok in H as (inputAccount & db1 & Hfind & H).
  apply wrapErr_Ok in Hfind.
  apply bind_Ok in H as (redeemScript & db2 & Hscript & H).
  apply wrapErr_Ok in Hscript. unfold liftOutcome in Hscript.
  inversion Hscript; subst db2.
  unfold ret in H. inversion H; subst.
  exists inputAccount, redeemScript. split; [exact Hfind |].
  split; [assumption | reflexivity].
Qed.

Lemma reserveItem_Err r db e' db' :
  reserveItem r db = (Err e', db') ->
  (exists e, accounts_Find (UTXOAccountID r) db = (Err e, db') /\
             e' = errors_Wrap e "get account info") \/
  (exists inputAccount e,
      accounts_Find (UTXOAccountID r) db = (Ok inputAccount, db') /\
      txscript_MultiSigScript
        (hd25519_XPubKeys
           (hd25519_DeriveXPubs (XPubs inputAccount)
              (signers_Path inputAccount AccountKeySpace (ControlProgramIndex r))))
        (Quorum inputAccount) = Err e /\
      e' = errors_Wrap e "compute redeem script").
Proof.
  unfold reserveItem. intros H.
  apply bind_Err in H as [H | (inputAccount & db1 & Hfind & H)].
  - left. apply wrapErr_Err in H as (e & He & ->). eauto.
  - right. apply wrapErr_Ok in Hfind.
    apply bind_Err in H as [H | (redeemScript & db2 & _ & H)].
    + apply wrapErr_Err in H as (e & He & ->).
      unfold liftOutcome in He. inversion He; subst.
      exists inputAccount, e. auto.
    + unfold ret in H. discriminate.
Qed.

Lemma changeDestination_Ok reserver assetAmount changeAmount db d db' :
  changeDestination reserver assetAmount changeAmount db = (Ok d, db') ->
  NewAccountDestination
    {| AssetID := AssetID assetAmount; Amount := changeAmount |}
    (AccountID reserver) [] db = (Ok d, db').
Proof. unfold changeDestination. apply wrapErr_Ok. Qed.


Lemma liftDB_eq {A : Type} (m : M DB A) w o w' :
  liftDB m w = (o, w') ->
  exists db', m (world_db w) = (o, db') /\
              w' = {| world_db := db'; world_rng := world_rng w |}.
Proof.
  unfold liftDB. destruct (m (world_db w)) as [o1 db1]. intros H.
  inversion H; subst. eauto.
Qed.

Lemma liftRand_eq {A : Type} (m : M Rand A) w o w' :
  liftRand m w = (o, w') ->
  exists rng', m (world_rng w) = (o, rng') /\
               w' = {| world_db := world_db w; world_rng := rng' |}.
Proof.
  unfold liftRand. destruct (m (world_rng w)) as [o1 r1]. intros H.
  inversion H; subst. eauto.
Qed.

Lemma Reserve_unfold reserver assetAmount ttl w reserved change db1 :
  utxodb_Reserve [utxodbSource reserver assetAmount] ttl (world_db w)
    = (Ok (reserved, change), db1) ->
  Reserve reserver assetAmount ttl w =
  reserveResult reserver assetAmount reserved change
                {| world_db := db1; world_rng := world_rng w |}.
Proof.
  intros H. unfold Reserve, bind, liftDB. rewrite H. reflexivity.
Qed.

Lemma reserveResult_Ok reserver assetAmount reserved change w res w' :
  reserveResult reserver assetAmount reserved change w = (Ok res, w') ->
  exists items db2 dests,
    forEach reserveItem reserved [] (world_db w) = (Ok items, db2) /\
    reserveChange reserver assetAmount change
                  {| world_db := db2; world_rng := world_rng w |} = (Ok dests, w') /\
    res = {| Items := items; ResultChange := dests |}.
Proof.
  unfold reserveResult. intros H.
  apply bind_Ok in H as (items & w1 & Hitems & H).
  apply liftDB_eq in Hitems as (db2 & Hitems & ->).
  apply bind_Ok in H as (dests & w2 & Hdests & H).
  unfold ret in H. inversion H; subst. eauto 6.
Qed.

Lemma reserveChange_Ok reserver assetAmount change0 rest w dests w' :
  reserveChange reserver assetAmount (change0 :: rest) w = (Ok dests, w') ->
  exists changeAmounts rng' db',
    breakupChange (ChangeAmount change0) (world_rng w) = (Ok changeAmounts, rng') /\
    forEach (changeDestination reserver assetAmount) changeAmounts [] (world_db w)
      = (Ok dests, db') /\
    w' = {| world_db := db'; world_rng := rng' |}.
Proof.
  unfold reserveChange. intros H.
  apply bind_Ok in H as (changeAmounts & w1 & Hbreak & H).
  apply liftRand_eq in Hbreak as (rng' & Hbreak & ->).
  apply liftDB_eq in H as (db' & H & ->). simpl in *. eauto 6.
Qed.

Lemma items_amounts reserved items :
  Forall2 (fun r item => exists s1 s2, reserveItem r s1 = (Ok item, s2)) reserved items ->
  sumZ (map (fun item => InputAmount (ItemTxInput item)) items)
  = sumZ (map UTXOAmount reserved).
Proof.
  induction 1 as [| r item reserved items (s1 & s2 & Hitem) _ IH]; [reflexivity |].
  apply reserveItem_Ok in Hitem as (acct & script & _ & _ & ->).
  simpl. simpl in IH. rewrite IH. reflexivity.
Qed.

Lemma dests_amounts reserver assetAmount changeAmounts dests :
  Forall2 (fun a d => exists s1 s2,
               changeDestination reserver assetAmount a s1 = (Ok d, s2))
          changeAmounts dests ->
  sumZ (map (fun d => Amount (DestAssetAmount d)) dests) = sumZ changeAmounts.
Proof.
  induction 1 as [| a d changeAmounts dests (s1 & s2 & Hd) _ IH]; [reflexivity |].
  apply changeDestination_Ok in Hd.
  apply NewAccountDestination_Ok in Hd as (acp & _ & ->).
  simpl. simpl in IH. rewrite IH. reflexivity.
Qed.

End Unfolding.

(* ===================================================================== *)
(** ** LoadAccountInfo: groups and rows *)
(* ===================================================================== *)

Lemma bytes_eqb_eq a b : bytes_eqb a b = true <-> a = b.
Proof.
  unfold bytes_eqb. rewrite String.eqb_eq. split; [| congruence].
  intros H. rewrite <- (list_byte_of_string_of_list_byte a),
                    <- (list_byte_of_string_of_list_byte b).
  by rewrite H.
Qed.

Lemma bytes_eqb_refl a : bytes_eqb a a = true.
Proof. by apply bytes_eqb_eq. Qed.


Section Annotation.
Context `{C : Collaborators}.

Lemma scriptStr_inj p q : scriptStr p = scriptStr q -> p = q.
Proof. intros H. apply bytes_eqb_eq. unfold bytes_eqb. by apply String.eqb_eq. Qed.

Lemma group_fold outs :
  forall (m : gmap string (list Output)) p,
    default [] (fold_left groupOutput outs m !! scriptStr p)
    = default [] (m !! scriptStr p) ++ group p outs.
Proof.
  induction outs as [| out outs IH]; intros m p; simpl.
  - by rewrite app_nil_r.
  - rewrite IH. unfold groupOutput at 1.
    destruct (bytes_eqb p (ControlProgram out)) eqn:Heq.
    + apply bytes_eqb_eq in Heq as <-.
      rewrite lookup_insert_eq. simpl. by rewrite <- app_assoc.
    + rewrite lookup_insert_ne; [reflexivity |].
      intros Hs. apply scriptStr_inj in Hs.
      symmetry in Hs. apply bytes_eqb_eq in Hs. congruence.
Qed.

Lemma groupOutputs_lookup outs p :
  default [] (groupOutputs outs !! scriptStr p) = group p outs.
Proof. unfold groupOutputs. rewrite group_fold, lookup_empty. reflexivity. Qed.

Lemma annotateRow_fold outs rows :
  forall result,
    fold_left (annotateRow (groupOutputs outs)) rows result
    = result ++ annotateRows outs rows.
Proof.
  induction rows as [| row rows IH]; intros result; simpl.
  - by rewrite app_nil_r.
  - rewrite IH. unfold annotateRow. rewrite groupOutputs_lookup.
    by rewrite <- app_assoc.
Qed.

Lemma LoadAccountInfo_unfold outs db :
  LoadAccountInfo outs db =
  (match snd (pg_ForQueryRows accountQuery (scriptsOf (groupOutputs outs)) db) with
   | Some e => Err e
   | None =>
       Ok (annotateRows outs
             (fst (pg_ForQueryRows accountQuery (scriptsOf (groupOutputs outs)) db)))
   end, db).
Proof.
  unfold LoadAccountInfo.
  destruct (pg_ForQueryRows accountQuery (scriptsOf (groupOutputs outs)) db)
    as [rows [e |]]; simpl; [reflexivity |].
  by rewrite annotateRow_fold.
Qed.

Lemma group_program p out outs : In out (group p outs) -> ControlProgram out = p.
Proof.
  unfold group. rewrite filter_In. intros [_ H].
  apply bytes_eqb_eq in H. congruence.
Qed.




Lemma annotateRows_In outs rows o :
  In o (annotateRows outs rows) ->
  exists row out, In row rows /\ In out outs /\
                  ControlProgram out = RowProgram row /\ o = annotate row out.
Proof.
  unfold annotateRows. rewrite in_flat_map. intros (row & Hrow & Ho).
  apply in_map_iff in Ho as (out & <- & Hout).
  exists row, out. split; [exact Hrow |].
  split; [| split; [by apply group_program in Hout | reflexivity]].
  unfold group in Hout. by apply filter_In in Hout as [? _].
Qed.

End Annotation.

(* ===================================================================== *)
(** ** Theorems: breakupChange *)
(* ===================================================================== *)

(** C2: the specification asks that [breakupChange total], for every
    [total >= 1], return a non-empty sequence of positive pieces summing to
    [total].  On the [uint64] value 2^63, when the first coin flip asks for
    a split, the call returns nothing: [int64(total)] is negative and
    [rand.Int63n] panics.  (Below 2^63 the property holds, see
    [breakupChange_spec] and [breakupChange_returns].) *)
Theorem breakupChange_panics_at_two63 :
  is_uint64 two63 /\ 1 <= two63 /\
  int64 two63 = - two63 /\
  fst (breakupChange two63 (Fake.tape [0])) = Panic "invalid argument to Int63n".
Proof.
  split; [unfold is_uint64, two63, two64; lia |].
  split; [unfold two63; lia |].
  split; [reflexivity |].
  unfold breakupChange, bind.
  destruct (Z.to_nat two63) as [| n] eqn:Hn; reflexivity.
Qed.

(** C9: [breakupChange] terminates on every [uint64] and every tape of
    draws.  Each completed turn of the loop takes at least 1 from [total]
    and leaves it non-negative; [total + 1] evaluations of the loop
    condition, hence at most [total] turns, always suffice (more fuel
    changes nothing and the fuel never runs out); the call therefore
    finishes, and what it returns has at most [max total 1] pieces. *)
Theorem breakupChange_terminates (total : Z) (r : Rand) :
  is_uint64 total ->
  (forall amounts r0 total' amounts' r',
      breakupChange_step total amounts r0 = (Ok (Continue total' amounts'), r') ->
      0 <= total' /\ total' + 1 <= total /\ length amounts' = S (length amounts)) /\
  (forall fuel,
      (Z.to_nat total < fuel)%nat ->
      fst (breakupChange_loop fuel total [] r) <> Diverge /\
      breakupChange_loop fuel total [] r
      = breakupChange_loop (S (Z.to_nat total)) total [] r) /\
  fst (breakupChange total r) <> Diverge /\
  (forall amounts r',
      breakupChange total r = (Ok amounts, r') ->
      Z.of_nat (length amounts) <= Z.max total 1).
Proof.
  intros Hu. split; [| split; [| split]].
  - intros amounts r0 total' amounts' r' Hstep.
    pose proof (breakupChange_step_spec total amounts r0 Hu) as Hs.
    rewrite Hstep in Hs. destruct Hs as (_ & c & Hc & -> & ->).
    rewrite length_app. simpl. lia.
  - intros fuel Hfuel.
    assert (Hnd : forall f, (Z.to_nat total < f)%nat ->
                            fst (breakupChange_loop f total [] r) <> Diverge).
    { intros f Hf.
      pose proof (breakupChange_loop_spec f total [] r Hu Hf) as Hs.
      destruct (breakupChange_loop f total [] r) as [[[t a] | e | msg | ] r1];
        simpl; try contradiction; discriminate. }
    split; [by apply Hnd |].
    apply breakupChange_loop_fuel; [apply Hnd |]; lia.
  - pose proof (breakupChange_spec total r Hu) as Hs.
    destruct (breakupChange total r) as [[a | e | msg | ] r1];
      simpl; try contradiction; discriminate.
  - intros amounts r' Heq.
    pose proof (breakupChange_spec total r Hu) as Hs.
    rewrite Heq in Hs. tauto.
Qed.

Lemma breakupChange_terminates_witness :
  is_uint64 50 /\
  fst (breakupChange 50 (Fake.tape [0; 19; 0; 4; 1])) <> Diverge.
Proof.
  assert (Hu : is_uint64 50) by (unfold is_uint64, two64; lia).
  split; [exact Hu |].
  exact (proj1 (proj2 (proj2
           (breakupChange_terminates 50 (Fake.tape [0; 19; 0; 4; 1]) Hu)))).
Defined.

(* ===================================================================== *)
(** ** Theorems: NewAccountDestination *)
(* ===================================================================== *)

(** C8: [NewAccountDestination] makes exactly one allocation call for
    [accountID].  When the directory returns a control program, the
    destination carries the given asset amount and metadata and its
    receiver exposes that program as its script; when the allocation
    fails, that same error comes back, with no destination. *)
Theorem NewAccountDestination_spec `{C : Collaborators}
    (assetAmount : AssetAmount) (account : string) (metadata : bytes) (db : DB) :
  match accounts_CreateControlProgram account db with
  | (Ok acp, db') =>
      exists d,
        NewAccountDestination assetAmount account metadata db = (Ok d, db') /\
        DestAssetAmount d = assetAmount /\
        Metadata d = metadata /\
        PKScript (DestReceiver d) = acp /\
        accountID (DestReceiver d) = account
  | (Err e, db') =>
      NewAccountDestination assetAmount account metadata db = (Err e, db')
  | (Panic msg, db') =>
      NewAccountDestination assetAmount account metadata db = (Panic msg, db')
  | (Diverge, db') =>
      NewAccountDestination assetAmount account metadata db = (Diverge, db')
  end.
Proof.
  unfold NewAccountDestination, bind.
  destruct (accounts_CreateControlProgram account db) as [[acp | e | msg | ] db'];
    try reflexivity.
  eexists. split; [reflexivity |]. simpl. auto.
Qed.

(* ===================================================================== *)
(** ** Theorems: Reserve *)
(* ===================================================================== *)

Section ReserveTheorems.
Context `{C : Collaborators}.

(** C1, as amended: when [Reserve] returns a result and the engine's
    answer covers the request with its excess reported in at most one
    change bucket, the amounts of the transaction inputs sum to the
    requested amount plus the amounts of the returned change
    destinations. *)
Theorem Reserve_conserves_amount
    (reserver : AccountReserver) (assetAmount : AssetAmount) (ttl : Duration)
    (w : World) (reserved : list UTXO) (change : list Change) (db1 : DB)
    (res : ReserveResult) (w' : World) :
  utxodb_Reserve [utxodbSource reserver assetAmount] ttl (world_db w)
    = (Ok (reserved, change), db1) ->
  sumZ (map UTXOAmount reserved)
    = Amount assetAmount + sumZ (map ChangeAmount change) ->
  Forall (fun c => is_uint64 (ChangeAmount c)) change ->
  (length change <= 1)%nat ->
  Reserve reserver assetAmount ttl w = (Ok res, w') ->
  sumZ (map (fun item => InputAmount (ItemTxInput item)) (Items res))
  = Amount assetAmount
    + sumZ (map (fun d => Amount (DestAssetAmount d)) (ResultChange res)).
Proof.
  intros Hengine Hcontract Hrange Hone Hres.
  rewrite (Reserve_unfold _ _ _ _ _ _ _ Hengine) in Hres.
  apply reserveResult_Ok in Hres as (items & db2 & dests & Hitems & Hchange & ->).
  apply forEach_Ok in Hitems as (zs & -> & Hall). simpl app in *.
  cbn [Items ResultChange].
  rewrite (items_amounts _ _ Hall), Hcontract. f_equal.
  destruct change as [| change0 [| change1 rest]]; [| | simpl in Hone; lia].
  - simpl in Hchange. unfold ret in Hchange. inversion Hchange; subst. reflexivity.
  - apply reserveChange_Ok in Hchange as (amounts & rng' & db' & Hbreak & Hdests & _).
    apply forEach_Ok in Hdests as (ds & -> & Hds). simpl app.
    rewrite (dests_amounts _ _ _ _ Hds).
    inversion Hrange as [| ? ? Hu _]; subst.
    pose proof (breakupChange_spec _ (world_rng
      {| world_db := db2; world_rng := world_rng {| world_db := db1; world_rng := world_rng w |} |}) Hu) as Hs.
    rewrite Hbreak in Hs. destruct Hs as (_ & Hsum & _). simpl. lia.
Qed.

(** C3, as amended: when the engine returns a non-empty list of change
    buckets and [Reserve] returns a result, only the first bucket is
    consulted.  Its amount goes through [breakupChange], which yields
    positive sub-amounts summing to it: at least one when the amount is
    at least 1, none when it is 0.  The change list holds, in order, one
    destination per sub-amount, each allocated by [NewAccountDestination]
    for the reserver's account with the requested asset; the other
    buckets do not affect the result. *)
Theorem Reserve_first_bucket_only
    (reserver : AccountReserver) (assetAmount : AssetAmount) (ttl : Duration)
    (w : World) (reserved : list UTXO) (change0 : Change) (rest : list Change)
    (db1 : DB) (res : ReserveResult) (w' : World) :
  utxodb_Reserve [utxodbSource reserver assetAmount] ttl (world_db w)
    = (Ok (reserved, change0 :: rest), db1) ->
  is_uint64 (ChangeAmount change0) ->
  Reserve reserver assetAmount ttl w = (Ok res, w') ->
  exists changeAmounts rng',
    breakupChange (ChangeAmount change0) (world_rng w) = (Ok changeAmounts, rng') /\
    Forall (fun a => 1 <= a) changeAmounts /\
    sumZ changeAmounts = ChangeAmount change0 /\
    (1 <= ChangeAmount change0 -> (1 <= length changeAmounts)%nat) /\
    (ChangeAmount change0 = 0 -> changeAmounts = []) /\
    Forall2 (fun a d =>
               exists db db',
                 NewAccountDestination
                   {| AssetID := AssetID assetAmount; Amount := a |}
                   (AccountID reserver) [] db = (Ok d, db'))
            changeAmounts (ResultChange res) /\
    (forall rest',
        reserveResult reserver assetAmount reserved (change0 :: rest')
                      {| world_db := db1; world_rng := world_rng w |}
        = (Ok res, w')).
Proof.
  intros Hengine Hu Hres.
  rewrite (Reserve_unfold _ _ _ _ _ _ _ Hengine) in Hres.
  pose proof Hres as Hres0.
  apply reserveResult_Ok in Hres as (items & db2 & dests & Hitems & Hchange & ->).
  apply reserveChange_Ok in Hchange as (amounts & rng' & db' & Hbreak & Hdests & _).
  simpl in Hbreak. exists amounts, rng'. split; [exact Hbreak |].
  pose proof (breakupChange_spec _ (world_rng w) Hu) as Hs.
  rewrite Hbreak in Hs. destruct Hs as (Hpos & Hsum & Hlen & Hne).
  split; [exact Hpos |]. split; [exact Hsum |]. split; [| split; [| split]].
  - intros H1. specialize (Hne H1). destruct amounts; [congruence | simpl; lia].
  - intros H0. rewrite H0 in Hsum.
    destruct amounts as [| a amounts]; [reflexivity |].
    exfalso. inversion Hpos as [| ? ? Ha Hrest]; subst.
    assert (0 <= sumZ amounts); [| simpl in Hsum; lia].
    clear -Hrest. induction Hrest; simpl; lia.
  - apply forEach_Ok in Hdests as (ds & -> & Hds). simpl.
    eapply Forall2_impl; [exact Hds |].
    intros a d (s1 & s2 & Hd). apply changeDestination_Ok in Hd. eauto.
  - intros rest'. exact Hres0.
Qed.

(** C4: when [Reserve] returns a result, its items follow the reserved
    outputs one for one.  The template input of each copies the asset and
    the amount of its output; its witness is the signer placeholders of
    the account's keys along the account key-space path at the output's
    control-program index, with the account's quorum, followed by the
    redeem script as witness data; that script is the multisig script of
    the public keys of the account's keys derived along the same path,
    with the account's quorum. *)
Theorem Reserve_template_inputs
    (reserver : AccountReserver) (assetAmount : AssetAmount) (ttl : Duration)
    (w : World) (reserved : list UTXO) (change : list Change) (db1 : DB)
    (res : ReserveResult) (w' : World) :
  utxodb_Reserve [utxodbSource reserver assetAmount] ttl (world_db w)
    = (Ok (reserved, change), db1) ->
  Reserve reserver assetAmount ttl w = (Ok res, w') ->
  Forall2
    (fun r item =>
       exists inputAccount redeemScript db db',
         accounts_Find (UTXOAccountID r) db = (Ok inputAccount, db') /\
         let path := signers_Path inputAccount AccountKeySpace (ControlProgramIndex r) in
         txscript_MultiSigScript
           (hd25519_XPubKeys (hd25519_DeriveXPubs (XPubs inputAccount) path))
           (Quorum inputAccount) = Ok redeemScript /\
         TemplateAssetID (TemplateInput item) = UTXOAssetID r /\
         TemplateAmount (TemplateInput item) = UTXOAmount r /\
         WitnessComponents (TemplateInput item)
         = [SignatureWitness (txbuilder_InputSigs (XPubs inputAccount) path)
                             (Quorum inputAccount) [];
            DataWitness redeemScript] /\
         ItemTxInput item
         = bc_NewSpendInput (UTXOHash r) (UTXOIndex r) [] (UTXOAssetID r)
                            (UTXOAmount r) (UTXOScript r) [])
    reserved (Items res).
Proof.
  intros Hengine Hres.
  rewrite (Reserve_unfold _ _ _ _ _ _ _ Hengine) in Hres.
  apply reserveResult_Ok in Hres as (items & db2 & dests & Hitems & _ & ->).
  apply forEach_Ok in Hitems as (zs & -> & Hall). simpl.
  eapply Forall2_impl; [exact Hall |].
  intros r item (s1 & s2 & Hitem).
  apply reserveItem_Ok in Hitem as (acct & script & Hfind & Hscript & ->).
  exists acct, script, s1, s2. simpl. auto 10.
Qed.


(** C10: [breakupChange 0] returns the empty sequence without drawing.
    So when the first change bucket of the engine has amount 0,
    [Reserve] allocates nothing and draws nothing after the items are
    built, and a result it returns has an empty change list. *)
Theorem breakupChange_zero_no_change
    (reserver : AccountReserver) (assetAmount : AssetAmount) (ttl : Duration)
    (w : World) (reserved : list UTXO) (change0 : Change) (rest : list Change)
    (db1 : DB) :
  utxodb_Reserve [utxodbSource reserver assetAmount] ttl (world_db w)
    = (Ok (reserved, change0 :: rest), db1) ->
  ChangeAmount change0 = 0 ->
  (forall r, breakupChange (ChangeAmount change0) r = (Ok [], r)) /\
  (forall w1, reserveChange reserver assetAmount (change0 :: rest) w1 = (Ok [], w1)) /\
  Reserve reserver assetAmount ttl w
  = (let* items := liftDB (forEach reserveItem reserved []) in
     ret {| Items := items; ResultChange := [] |})
      {| world_db := db1; world_rng := world_rng w |} /\
  (forall res w', Reserve reserver assetAmount ttl w = (Ok res, w') ->
                  ResultChange res = []).
Proof.
  intros Hengine Hzero.
  assert (Hchange : forall w1,
             reserveChange reserver assetAmount (change0 :: rest) w1 = (Ok [], w1)).
  { intros [db r]. unfold reserveChange. rewrite Hzero. reflexivity. }
  assert (Heq : Reserve reserver assetAmount ttl w
                = (let* items := liftDB (forEach reserveItem reserved []) in
                   ret {| Items := items; ResultChange := [] |})
                    {| world_db := db1; world_rng := world_rng w |}).
  { rewrite (Reserve_unfold _ _ _ _ _ _ _ Hengine).
    unfold reserveResult, bind.
    destruct (liftDB (forEach reserveItem reserved []) _) as [[items | e | msg | ] w2];
      try reflexivity.
    rewrite Hchange. reflexivity. }
  split; [intros r; rewrite Hzero; reflexivity |].
  split; [exact Hchange |]. split; [exact Heq |].
  intros res w' Hres. rewrite Heq in Hres.
  apply bind_Ok in Hres as (items & w2 & _ & Hret).
  unfold ret in Hret. inversion Hret; subst. reflexivity.
Qed.

End ReserveTheorems.

(* ===================================================================== *)
(** ** Theorems: LoadAccountInfo *)
(* ===================================================================== *)

Section LoadAccountInfoTheorems.
Context `{C : Collaborators}.


(** C6: [LoadAccountInfo] returns an error exactly when the batched
    query does, and then it is that error, with no result.  When the
    query succeeds the call returns a result whatever the rows are:
    with no row at all, or no row for any input program, the result is
    empty and there is no error. *)
Theorem LoadAccountInfo_errors (outs : list Output) (db : DB) :
  let query := pg_ForQueryRows accountQuery (scriptsOf (groupOutputs outs)) db in
  (forall e, fst (LoadAccountInfo outs db) = Err e <-> snd query = Some e) /\
  (snd query = None <-> exists result, LoadAccountInfo outs db = (Ok result, db)) /\
  (snd query = None ->
   (forall row out, In row (fst query) -> In out outs ->
                    ControlProgram out <> RowProgram row) ->
   LoadAccountInfo outs db = (Ok [], db)).
Proof.
  intros query. rewrite LoadAccountInfo_unfold. fold query.
  destruct (snd query) as [e0 |]; simpl.
  - split; [| split].
    + intros e. split; congruence.
    + split; [discriminate | intros [result H]; discriminate].
    + discriminate.
  - split; [| split].
    + intros e. split; discriminate.
    + split; [eauto | reflexivity].
    + intros _ Hnone. f_equal. f_equal.
      destruct (annotateRows outs (fst query)) as [| o l] eqn:Heq; [reflexivity |].
      assert (Ho : In o (annotateRows outs (fst query))) by (rewrite Heq; by left).
      apply annotateRows_In in Ho as (row & out & Hrow & Hout & Hprog & _).
      exfalso. by apply (Hnone row out).
Qed.

End LoadAccountInfoTheorems.

(* ===================================================================== *)
(** ** The code run on the fake collaborators *)
(* ===================================================================== *)

Section Runs.
#[local] Existing Instance Fake.collaborators.
Import Fake.

(** C1, the statement as first written fails: the engine covers a
    request of 150 with one output of 200 and reports the excess of 50 as
    two change buckets, 30 and 20.  [Reserve] returns a result whose
    inputs sum to 200 and whose change sums to 30. *)
Lemma Reserve_two_buckets_lose_change :
  utxodb_Reserve [utxodbSource reserver1 usd150] 60 (world_db twoBuckets)
    = (Ok ([utxo200], [bucket 30; bucket 20]), world_db twoBuckets) /\
  0 < Amount usd150 /\
  sumZ (map UTXOAmount [utxo200])
    = Amount usd150 + sumZ (map ChangeAmount [bucket 30; bucket 20]) /\
  fst (Reserve reserver1 usd150 60 twoBuckets) = Ok twoBucketsResult /\
  sumZ (inputAmounts twoBucketsResult) = 200 /\
  sumZ (changeAmounts twoBucketsResult) = 30 /\
  sumZ (inputAmounts twoBucketsResult)
    <> Amount usd150 + sumZ (changeAmounts twoBucketsResult).
Proof.
  repeat split; try reflexivity. vm_compute. discriminate.
Qed.

Lemma Reserve_conserves_amount_witness :
  utxodb_Reserve [utxodbSource reserver1 usd150] 60 (world_db scenario)
    = (Ok ([utxo200], [bucket 50]), world_db scenario) /\
  fst (Reserve reserver1 usd150 60 scenario) = Ok scenarioResult /\
  sumZ (inputAmounts scenarioResult)
    = Amount usd150 + sumZ (changeAmounts scenarioResult).
Proof.
  split; [reflexivity |]. split; [vm_compute; reflexivity |].
  apply (Reserve_conserves_amount reserver1 usd150 60 scenario
           [utxo200] [bucket 50] (world_db scenario) scenarioResult
           (snd (Reserve reserver1 usd150 60 scenario))).
  - reflexivity.
  - reflexivity.
  - constructor; [| constructor]. unfold is_uint64, two64. simpl. lia.
  - simpl. lia.
  - vm_compute. reflexivity.
Defined.

(** C3, the statement as first written fails: the engine returns one
    change bucket, of amount 0.  The list of change buckets is not
    empty, and [Reserve] returns a result with no change destination at
    all, where the statement promises at least one sub-amount and one
    destination for it. *)
Lemma Reserve_zero_bucket_no_destination :
  utxodb_Reserve [utxodbSource reserver1 usd150] 60 (world_db zeroBucket)
    = (Ok ([utxo150], [bucket 0]), world_db zeroBucket) /\
  fst (Reserve reserver1 usd150 60 zeroBucket) = Ok zeroBucketResult /\
  breakupChange (ChangeAmount (bucket 0)) (world_rng zeroBucket)
    = (Ok [], world_rng zeroBucket) /\
  ResultChange zeroBucketResult = [] /\
  ~ (1 <= length (ResultChange zeroBucketResult))%nat.
Proof.
  repeat split; try reflexivity. vm_compute. lia.
Qed.

Lemma Reserve_first_bucket_only_witness :
  utxodb_Reserve [utxodbSource reserver1 usd150] 60 (world_db scenario)
    = (Ok ([utxo200], [bucket 50]), world_db scenario) /\
  is_uint64 (ChangeAmount (bucket 50)) /\
  fst (Reserve reserver1 usd150 60 scenario) = Ok scenarioResult /\
  exists changeAmounts rng',
    breakupChange 50 (world_rng scenario) = (Ok changeAmounts, rng') /\
    sumZ changeAmounts = 50 /\
    length (ResultChange scenarioResult) = length changeAmounts.
Proof.
  assert (Hu : is_uint64 (ChangeAmount (bucket 50)))
    by (unfold is_uint64, two64; simpl; lia).
  split; [reflexivity |]. split; [exact Hu |]. split; [vm_compute; reflexivity |].
  destruct (Reserve_first_bucket_only reserver1 usd150 60 scenario
              [utxo200] (bucket 50) [] (world_db scenario) scenarioResult
              (snd (Reserve reserver1 usd150 60 scenario))
              eq_refl Hu ltac:(vm_compute; reflexivity))
    as (changeAmounts & rng' & Hbreak & _ & Hsum & _ & _ & Hdests & _).
  exists changeAmounts, rng'. split; [exact Hbreak |]. split; [exact Hsum |].
  symmetry. exact (Forall2_length _ _ _ Hdests).
Defined.

Lemma Reserve_template_inputs_witness :
  utxodb_Reserve [utxodbSource reserver1 usd150] 60 (world_db scenario)
    = (Ok ([utxo200], [bucket 50]), world_db scenario) /\
  fst (Reserve reserver1 usd150 60 scenario) = Ok scenarioResult /\
  length (Items scenarioResult) = 1%nat.
Proof.
  split; [reflexivity |]. split; [vm_compute; reflexivity |].
  symmetry.
  exact (Forall2_length _ _ _
           (Reserve_template_inputs reserver1 usd150 60 scenario
              [utxo200] [bucket 50] (world_db scenario) scenarioResult
              (snd (Reserve reserver1 usd150 60 scenario))
              eq_refl ltac:(vm_compute; reflexivity))).
Defined.

Lemma breakupChange_zero_no_change_witness :
  utxodb_Reserve [utxodbSource reserver1 usd150] 60 (world_db zeroBucket)
    = (Ok ([utxo150], [bucket 0]), world_db zeroBucket) /\
  ChangeAmount (bucket 0) = 0 /\
  ResultChange zeroBucketResult = [].
Proof.
  split; [reflexivity |]. split; [reflexivity |].
  apply (proj2 (proj2 (proj2
           (breakupChange_zero_no_change reserver1 usd150 60 zeroBucket
              [utxo150] (bucket 0) [] (world_db zeroBucket) eq_refl eq_refl)))
           zeroBucketResult (snd (Reserve reserver1 usd150 60 zeroBucket))).
  vm_compute. reflexivity.
Defined.


End Runs.

(* ===================================================================== *)
(** ** Further properties: breakupChange *)
(* ===================================================================== *)

Lemma sumZ_nonneg l : Forall (fun c => 1 <= c) l -> 0 <= sumZ l.
Proof. induction 1; simpl; lia. Qed.

Lemma sumZ_bound l c : Forall (fun c => 1 <= c) l -> In c l -> c <= sumZ l.
Proof.
  induction 1 as [| x l Hx Hl IH]; intros Hin; [contradiction |].
  pose proof (sumZ_nonneg l Hl). simpl.
  destruct Hin as [-> | Hin]; [lia |]. specialize (IH Hin). lia.
Qed.

Lemma length_le_sumZ l : Forall (fun c => 1 <= c) l -> Z.of_nat (length l) <= sumZ l.
Proof. induction 1; simpl length; simpl sumZ; lia. Qed.

(** X1: below 2^63 the split always succeeds.  For [1 <= total < 2^63]
    and every tape, [breakupChange total] returns a non-empty sequence
    whose pieces all lie between 1 and [total] and sum to [total]. *)
Theorem breakupChange_below_two63 (total : Z) (r : Rand) :
  1 <= total < two63 ->
  exists amounts r',
    breakupChange total r = (Ok amounts, r') /\
    amounts <> [] /\
    Forall (fun c => 1 <= c <= total) amounts /\
    sumZ amounts = total.
Proof.
  intros Hrange.
  assert (Hu : is_uint64 total) by (unfold is_uint64, two64, two63 in *; lia).
  destruct (breakupChange_returns total r ltac:(lia)) as (amounts & r' & Heq).
  pose proof (breakupChange_spec total r Hu) as Hs. rewrite Heq in Hs.
  destruct Hs as (Hpos & Hsum & _ & Hne).
  exists amounts, r'. split; [exact Heq |]. split; [apply Hne; lia |].
  split; [| exact Hsum].
  apply Forall_forall. intros c Hc. apply list_elem_of_In in Hc.
  split.
  - rewrite Forall_forall in Hpos. apply Hpos. by apply list_elem_of_In.
  - rewrite <- Hsum. by apply sumZ_bound.
Qed.

Lemma breakupChange_below_two63_witness :
  1 <= 50 < two63 /\
  exists amounts r',
    breakupChange 50 (Fake.tape [0; 19; 0; 4; 1]) = (Ok amounts, r') /\
    sumZ amounts = 50.
Proof.
  assert (H : 1 <= 50 < two63) by (unfold two63; lia).
  split; [exact H |].
  destruct (breakupChange_below_two63 50 (Fake.tape [0; 19; 0; 4; 1]) H)
    as (amounts & r' & Heq & _ & _ & Hsum).
  exists amounts, r'. split; [exact Heq | exact Hsum].
Defined.

(** X2: from 2^63 up the first coin flip decides everything.  For
    [2^63 <= total < 2^64], one draw is consumed; when it asks for a
    split the call panics inside [rand.Int63n], and otherwise the call
    returns [total] as a single piece. *)
Theorem breakupChange_from_two63 (total : Z) (r : Rand) :
  two63 <= total < two64 ->
  breakupChange total r
  = (if draws r (cursor r) mod 2 =? 0
     then Panic "invalid argument to Int63n"
     else Ok [total],
     {| draws := draws r; cursor := S (cursor r) |}).
Proof.
  intros Hrange. unfold breakupChange, bind.
  cbn [breakupChange_loop]. unfold bind, breakupChange_step.
  destruct (1 <? total) eqn:Hgt; [| apply Z.ltb_ge in Hgt; unfold two63 in *; lia].
  unfold bind. rewrite rand_Intn_two.
  destruct (draws r (cursor r) mod 2 =? 0).
  - rewrite rand_Int63n_nonpos; [reflexivity |].
    rewrite int64_large by exact Hrange. lia.
  - unfold ret.
    destruct (0 <? total) eqn:Hpos; [reflexivity |].
    apply Z.ltb_ge in Hpos. unfold two63 in *. lia.
Qed.

Lemma breakupChange_from_two63_witness :
  two63 <= two63 < two64 /\
  fst (breakupChange two63 (Fake.tape [1])) = Ok [two63].
Proof.
  assert (H : two63 <= two63 < two64) by (unfold two63, two64; lia).
  split; [exact H |].
  rewrite (breakupChange_from_two63 two63 (Fake.tape [1]) H). reflexivity.
Defined.

(** How many draws the loop takes: two per piece it appends, and one more
    when it stops on the coin. *)
Lemma breakupChange_loop_draws fuel :
  forall total amounts r total' amounts' r',
    breakupChange_loop fuel total amounts r = (Ok (total', amounts'), r') ->
    draws r' = draws r /\
    exists pieces,
      amounts' = amounts ++ pieces /\
      cursor r' = (cursor r + 2 * length pieces + (if (1 <? total')%Z then 1 else 0))%nat /\
      (total <= 1 -> r' = r /\ total' = total /\ pieces = []).
Proof.
  induction fuel as [| fuel IH]; intros total amounts r total' amounts' r' H;
    [discriminate |].
  simpl in H. apply bind_Ok in H as (s & r1 & Hstep & H).
  unfold breakupChange_step in Hstep.
  destruct (1 <? total) eqn:Hgt.
  - apply Z.ltb_lt in Hgt.
    unfold bind in Hstep. rewrite rand_Intn_two in Hstep.
    destruct (draws r (cursor r) mod 2 =? 0).
    + unfold rand_Int63n in Hstep.
      destruct (int64 total <=? 0); [discriminate |].
      unfold rand_draw, ret in Hstep. cbn [draws cursor] in Hstep.
      inversion Hstep; subst s r1. clear Hstep.
      apply IH in H as (Hd & pieces & -> & Hc & _). cbn [draws cursor] in *.
      split; [exact Hd |].
      eexists (_ :: pieces). rewrite <- app_assoc. split; [reflexivity |].
      split; [simpl length; lia | lia].
    + unfold ret in Hstep. inversion Hstep; subst s r1. clear Hstep.
      unfold ret in H. inversion H; subst. cbn [draws cursor].
      split; [reflexivity |]. exists []. rewrite app_nil_r.
      split; [reflexivity |]. split; [| lia].
      apply Z.ltb_lt in Hgt. rewrite Hgt. simpl. lia.
  - unfold ret in Hstep. inversion Hstep; subst s r1. clear Hstep.
    unfold ret in H. inversion H; subst.
    split; [reflexivity |]. exists []. rewrite app_nil_r.
    split; [reflexivity |]. rewrite Hgt. split; [simpl; lia | auto].
Qed.

(** X3: what a returning call takes from the shared generator.  The tape
    is left as it is and the cursor only moves forward, by two draws per
    turn of the loop and one more when the coin stops it: between
    [2 * (n - 1)] and [2 * n] draws for [n] returned pieces, and none at
    all when [total <= 1]. *)
Theorem breakupChange_draws (total : Z) (r : Rand) (amounts : list Z) (r' : Rand) :
  breakupChange total r = (Ok amounts, r') ->
  draws r' = draws r /\
  (cursor r <= cursor r' <= cursor r + 2 * length amounts)%nat /\
  (2 * length amounts <= cursor r' - cursor r + 2)%nat /\
  (total <= 1 -> r' = r).
Proof.
  unfold breakupChange. intros H.
  apply bind_Ok in H as ([t a] & r1 & Hloop & H).
  apply breakupChange_loop_draws in Hloop as (Hd & pieces & -> & Hc & Hsmall).
  change ([] ++ pieces) with pieces in H.
  destruct (0 <? t) eqn:Hpos; unfold ret in H; inversion H; subst; clear H.
  - rewrite length_app. simpl length.
    split; [exact Hd |]. destruct (1 <? t); (split; [lia |]); (split; [lia |]);
      intros Hle; by apply Hsmall.
  - apply Z.ltb_ge in Hpos.
    destruct (1 <? t) eqn:Hgt; [apply Z.ltb_lt in Hgt; lia |].
    split; [exact Hd |]. split; [lia |]. split; [lia |].
    intros Hle; by apply Hsmall.
Qed.

Lemma breakupChange_draws_witness :
  breakupChange 50 (Fake.tape [0; 19; 0; 4; 1])
  = (Ok [20; 5; 25], snd (breakupChange 50 (Fake.tape [0; 19; 0; 4; 1]))) /\
  (cursor (snd (breakupChange 50 (Fake.tape [0; 19; 0; 4; 1]%Z))) <= 0 + 2 * 3)%nat.
Proof.
  assert (H : breakupChange 50 (Fake.tape [0; 19; 0; 4; 1])
              = (Ok [20; 5; 25], snd (breakupChange 50 (Fake.tape [0; 19; 0; 4; 1]))))
    by (vm_compute; reflexivity).
  split; [exact H |].
  exact (proj2 (proj1 (proj2 (breakupChange_draws 50 _ _ _ H)))).
Defined.

(** On a tape of zeros every flip asks for a split and every split takes 1. *)
Lemma breakupChange_loop_zeros fuel :
  forall total amounts c,
    1 <= total < two63 ->
    (Z.to_nat total < fuel)%nat ->
    exists c',
      breakupChange_loop fuel total amounts {| draws := fun _ => 0; cursor := c |}
      = (Ok (1, amounts ++ repeat 1 (Z.to_nat (total - 1))),
         {| draws := fun _ => 0; cursor := c' |}).
Proof.
  induction fuel as [| fuel IH]; intros total amounts c Hrange Hfuel; [lia |].
  cbn [breakupChange_loop]. unfold bind at 1, breakupChange_step.
  destruct (1 <? total) eqn:Hgt.
  - apply Z.ltb_lt in Hgt.
    unfold bind. rewrite rand_Intn_two. cbn [draws cursor].
    change (0 mod 2 =? 0) with true. cbv iota.
    rewrite int64_small by (unfold two63 in *; lia).
    rewrite rand_Int63n_pos by lia. cbn [draws cursor]. unfold ret.
    rewrite Z.mod_0_l by lia.
    change (uint64_add 1 (uint64 0)) with 1.
    assert (Hsub : uint64_sub total 1 = total - 1).
    { unfold uint64_sub. apply uint64_small. unfold two64, two63 in *. lia. }
    rewrite Hsub.
    destruct (IH (total - 1) (amounts ++ [1]) (S (S c)) ltac:(lia) ltac:(lia))
      as (c' & Heq).
    exists c'. rewrite Heq. f_equal. f_equal.
    rewrite <- app_assoc. f_equal.
    replace (Z.to_nat (total - 1)) with (S (Z.to_nat (total - 1 - 1))) by lia.
    reflexivity.
  - apply Z.ltb_ge in Hgt. assert (total = 1) as -> by lia.
    exists c. unfold ret. simpl. by rewrite app_nil_r.
Qed.

(** X4: the bound on the number of pieces is reached.  When every draw
    is 0, each coin flip asks for a split and each split takes exactly 1:
    for [1 <= total < 2^63] the call returns [total] pieces, all equal
    to 1. *)
Theorem breakupChange_all_ones (total : Z) (c : nat) :
  1 <= total < two63 ->
  fst (breakupChange total {| draws := fun _ => 0; cursor := c |})
  = Ok (repeat 1 (Z.to_nat total)).
Proof.
  intros Hrange. unfold breakupChange, bind.
  destruct (breakupChange_loop_zeros (S (Z.to_nat total)) total [] c Hrange ltac:(lia))
    as (c' & Heq).
  rewrite Heq. change (0 <? 1) with true. cbv iota. unfold ret.
  cbn [fst app]. f_equal.
  replace (Z.to_nat total) with (Z.to_nat (total - 1) + 1)%nat by lia.
  rewrite repeat_app. reflexivity.
Qed.

Lemma breakupChange_all_ones_witness :
  1 <= 5 < two63 /\
  fst (breakupChange 5 {| draws := fun _ => 0; cursor := 0 |}) = Ok [1; 1; 1; 1; 1].
Proof.
  assert (H : 1 <= 5 < two63) by (unfold two63; lia).
  split; [exact H |].
  exact (breakupChange_all_ones 5 0 H).
Defined.

(* ===================================================================== *)
(** ** Further properties: Reserve *)
(* ===================================================================== *)

(** A failing loop stops at its first failing element: the elements before
    it were processed, those after it were not. *)
Lemma forEach_Err_prefix {S A B : Type} (f : A -> M S B) xs :
  forall acc s e s',
    forEach f xs acc s = (Err e, s') ->
    exists pre x post ys s1,
      xs = pre ++ x :: post /\
      forEach f pre acc s = (Ok ys, s1) /\
      f x s1 = (Err e, s').
Proof.
  induction xs as [| x xs IH]; intros acc s e s' H; simpl in H; [discriminate |].
  apply bind_Err in H as [H | (y & s1 & Hy & Hrest)].
  - exists [], x, xs, acc, s. auto.
  - apply IH in Hrest as (pre & x' & post & ys & s2 & -> & Hpre & Hx').
    exists (x :: pre), x', post, ys, s2. split; [reflexivity |].
    split; [| exact Hx']. simpl. unfold bind. rewrite Hy. exact Hpre.
Qed.

Lemma forEach_Ok_length {S A B : Type} (f : A -> M S B) xs s ys s' :
  forEach f xs [] s = (Ok ys, s') -> length ys = length xs.
Proof.
  intros H. apply forEach_Ok in H as (zs & -> & Hall). simpl.
  symmetry. exact (Forall2_length _ _ _ Hall).
Qed.

Lemma breakupChange_small total r :
  total <= 1 ->
  breakupChange total r = (Ok (if 0 <? total then [total] else []), r).
Proof.
  intros Hle. unfold breakupChange, bind. cbn [breakupChange_loop].
  unfold bind, breakupChange_step.
  destruct (1 <? total) eqn:Hgt; [apply Z.ltb_lt in Hgt; lia |].
  unfold ret. destruct (0 <? total); reflexivity.
Qed.

Section ReserveFurther.
Context `{C : Collaborators}.

Lemma liftDB_rng {A : Type} (m : M DB A) w :
  world_rng (snd (liftDB m w)) = world_rng w.
Proof. unfold liftDB. destruct (m (world_db w)). reflexivity. Qed.

Lemma dests_shape reserver assetAmount changeAmounts dests :
  Forall2 (fun a d => exists s1 s2,
               changeDestination reserver assetAmount a s1 = (Ok d, s2))
          changeAmounts dests ->
  map (fun d => Amount (DestAssetAmount d)) dests = changeAmounts /\
  Forall (fun d => AssetID (DestAssetAmount d) = AssetID assetAmount /\
                   Metadata d = [] /\
                   accountID (DestReceiver d) = AccountID reserver) dests.
Proof.
  induction 1 as [| a d changeAmounts dests (s1 & s2 & Hd) _ [IHm IHf]].
  - split; [reflexivity | constructor].
  - apply changeDestination_Ok in Hd.
    apply NewAccountDestination_Ok in Hd as (acp & _ & ->).
    split; [simpl; by rewrite IHm |]. constructor; [simpl; auto | exact IHf].
Qed.

(** X5: an engine that reports no change bucket.  A result [Reserve]
    returns then has an empty change list; after the items are built
    nothing more is done: no control program is allocated and the shared
    generator is not used. *)
Theorem Reserve_no_change_bucket
    (reserver : AccountReserver) (assetAmount : AssetAmount) (ttl : Duration)
    (w : World) (reserved : list UTXO) (db1 : DB) (res : ReserveResult) (w' : World) :
  utxodb_Reserve [utxodbSource reserver assetAmount] ttl (world_db w)
    = (Ok (reserved, []), db1) ->
  Reserve reserver assetAmount ttl w = (Ok res, w') ->
  ResultChange res = [] /\
  length (Items res) = length reserved /\
  forEach reserveItem reserved [] db1 = (Ok (Items res), world_db w') /\
  world_rng w' = world_rng w.
Proof.
  intros Hengine Hres.
  rewrite (Reserve_unfold _ _ _ _ _ _ _ Hengine) in Hres.
  apply reserveResult_Ok in Hres as (items & db2 & dests & Hitems & Hchange & ->).
  simpl in Hchange. unfold ret in Hchange. inversion Hchange; subst. simpl.
  split; [reflexivity |]. split; [by apply forEach_Ok_length in Hitems |].
  split; [exact Hitems | reflexivity].
Qed.

(** X6: [Reserve] uses the shared generator only to split a first change
    bucket larger than 1.  When the engine reports no bucket, or a first
    bucket of amount at most 1, the generator is the same after the call
    as before it, whatever the call returns. *)
Theorem Reserve_generator_untouched
    (reserver : AccountReserver) (assetAmount : AssetAmount) (ttl : Duration)
    (w : World) (reserved : list UTXO) (change : list Change) (db1 : DB)
    (o : outcome ReserveResult) (w' : World) :
  utxodb_Reserve [utxodbSource reserver assetAmount] ttl (world_db w)
    = (Ok (reserved, change), db1) ->
  (forall change0 rest, change = change0 :: rest -> ChangeAmount change0 <= 1) ->
  Reserve reserver assetAmount ttl w = (o, w') ->
  world_rng w' = world_rng w.
Proof.
  intros Hengine Hsmall Hres.
  rewrite (Reserve_unfold _ _ _ _ _ _ _ Hengine) in Hres.
  unfold reserveResult, bind in Hres.
  set (w1 := {| world_db := db1; world_rng := world_rng w |}) in *.
  pose proof (liftDB_rng (forEach reserveItem reserved []) w1) as Hrng1.
  destruct (liftDB (forEach reserveItem reserved []) w1) as [[items | e | msg | ] w2];
    simpl in Hrng1; try (inversion Hres; subst; exact Hrng1).
  destruct change as [| change0 rest].
  - simpl in Hres. unfold ret in Hres. inversion Hres; subst. exact Hrng1.
  - unfold reserveChange, bind, liftRand in Hres.
    rewrite (breakupChange_small _ _ (Hsmall change0 rest eq_refl)) in Hres.
    set (w3 := {| world_db := world_db w2; world_rng := world_rng w2 |}) in *.
    pose proof (liftDB_rng
                  (forEach (changeDestination reserver assetAmount)
                     (if 0 <? ChangeAmount change0 then [ChangeAmount change0] else []) [])
                  w3) as Hrng3.
    destruct (liftDB _ w3) as [[dests | e | msg | ] w4];
      simpl in Hrng3; unfold ret in Hres; inversion Hres; subst;
      rewrite Hrng3; exact Hrng1.
Qed.

(** X7: the change destinations of a result.  Each carries the asset of
    the request (not the asset named by the bucket), the reserver's
    account, no metadata and an amount between 1 and the first bucket's
    amount; their amounts sum to the first bucket's amount, so there are
    at most that many of them, whatever the other buckets hold. *)
Theorem Reserve_change_destinations
    (reserver : AccountReserver) (assetAmount : AssetAmount) (ttl : Duration)
    (w : World) (reserved : list UTXO) (change0 : Change) (rest : list Change)
    (db1 : DB) (res : ReserveResult) (w' : World) :
  utxodb_Reserve [utxodbSource reserver assetAmount] ttl (world_db w)
    = (Ok (reserved, change0 :: rest), db1) ->
  is_uint64 (ChangeAmount change0) ->
  Reserve reserver assetAmount ttl w = (Ok res, w') ->
  Forall (fun d =>
            AssetID (DestAssetAmount d) = AssetID assetAmount /\
            1 <= Amount (DestAssetAmount d) <= ChangeAmount change0 /\
            Metadata d = [] /\
            accountID (DestReceiver d) = AccountID reserver)
         (ResultChange res) /\
  sumZ (map (fun d => Amount (DestAssetAmount d)) (ResultChange res))
  = ChangeAmount change0 /\
  Z.of_nat (length (ResultChange res)) <= ChangeAmount change0.
Proof.
  intros Hengine Hu Hres.
  rewrite (Reserve_unfold _ _ _ _ _ _ _ Hengine) in Hres.
  apply reserveResult_Ok in Hres as (items & db2 & dests & _ & Hchange & ->).
  apply reserveChange_Ok in Hchange as (amounts & rng' & db' & Hbreak & Hdests & _).
  simpl in Hbreak.
  pose proof (breakupChange_spec _ (world_rng w) Hu) as Hs.
  rewrite Hbreak in Hs. destruct Hs as (Hpos & Hsum & Hlen & _).
  apply forEach_Ok in Hdests as (ds & -> & Hds). simpl.
  apply dests_shape in Hds as [Hmap Hfields].
  split; [| split].
  - apply Forall_forall. intros d Hd.
    rewrite Forall_forall in Hfields. destruct (Hfields d Hd) as (Ha & Hm & Hacc).
    split; [exact Ha |]. split; [| auto].
    assert (Hin : In (Amount (DestAssetAmount d)) amounts).
    { rewrite <- Hmap. apply in_map_iff. exists d. split; [reflexivity |].
      by apply list_elem_of_In. }
    split.
    + rewrite Forall_forall in Hpos. apply Hpos. by apply list_elem_of_In.
    + rewrite <- Hsum. by apply sumZ_bound.
  - by rewrite Hmap.
  - rewrite <- (length_map (fun d => Amount (DestAssetAmount d))), Hmap.
    rewrite <- Hsum. by apply length_le_sumZ.
Qed.

(** X8: a failure while the items are built.  [Reserve] returns the error
    of the first output that fails, wrapped by its stage; the outputs
    before it were processed, those after it are never looked up, no
    change destination is allocated and the generator is not used. *)
Theorem Reserve_item_failure
    (reserver : AccountReserver) (assetAmount : AssetAmount) (ttl : Duration)
    (w : World) (reserved : list UTXO) (change : list Change) (db1 : DB)
    (e' : error) (db2 : DB) :
  utxodb_Reserve [utxodbSource reserver assetAmount] ttl (world_db w)
    = (Ok (reserved, change), db1) ->
  forEach reserveItem reserved [] db1 = (Err e', db2) ->
  Reserve reserver assetAmount ttl w
  = (Err e', {| world_db := db2; world_rng := world_rng w |}) /\
  exists pre r post items db',
    reserved = pre ++ r :: post /\
    forEach reserveItem pre [] db1 = (Ok items, db') /\
    length items = length pre /\
    reserveItem r db' = (Err e', db2) /\
    exists e, e' = errors_Wrap e "get account info" \/
              e' = errors_Wrap e "compute redeem script".
Proof.
  intros Hengine Hitems. split.
  - rewrite (Reserve_unfold _ _ _ _ _ _ _ Hengine).
    unfold reserveResult, bind, liftDB. cbn [world_db world_rng].
    rewrite Hitems. reflexivity.
  - apply forEach_Err_prefix in Hitems as (pre & r & post & items & db' & -> & Hpre & Hr).
    exists pre, r, post, items, db'. split; [reflexivity |].
    split; [exact Hpre |]. split; [by apply forEach_Ok_length in Hpre |].
    split; [exact Hr |].
    apply reserveItem_Err in Hr as [(e & _ & ->) | (acct & e & _ & _ & ->)];
      exists e; auto.
Qed.


(** X10: the panic of the split reaches the caller of [Reserve].  When the
    items are built and the first change bucket is 2^63 or more, a first
    coin flip asking for a split makes [Reserve] panic: it returns neither
    a result nor an error. *)
Theorem Reserve_panics_on_large_bucket
    (reserver : AccountReserver) (assetAmount : AssetAmount) (ttl : Duration)
    (w : World) (reserved : list UTXO) (change0 : Change) (rest : list Change)
    (db1 : DB) (items : list ReserveResultItem) (db2 : DB) :
  utxodb_Reserve [utxodbSource reserver assetAmount] ttl (world_db w)
    = (Ok (reserved, change0 :: rest), db1) ->
  forEach reserveItem reserved [] db1 = (Ok items, db2) ->
  two63 <= ChangeAmount change0 < two64 ->
  draws (world_rng w) (cursor (world_rng w)) mod 2 = 0 ->
  fst (Reserve reserver assetAmount ttl w) = Panic "invalid argument to Int63n".
Proof.
  intros Hengine Hitems Hrange Hcoin.
  rewrite (Reserve_unfold _ _ _ _ _ _ _ Hengine).
  unfold reserveResult, bind, liftDB. cbn [world_db world_rng].
  rewrite Hitems. unfold reserveChange, bind, liftRand. cbn [world_db world_rng].
  pose proof (breakupChange_panics_high _ (world_rng w) Hrange Hcoin) as Hpanic.
  destruct (breakupChange (ChangeAmount change0) (world_rng w)) as [o rng'].
  simpl in Hpanic. subst o. reflexivity.
Qed.

End ReserveFurther.

(* ===================================================================== *)
(** ** Further properties: LoadAccountInfo *)
(* ===================================================================== *)

Lemma skipn_repeat_sub {A : Type} (z : A) n :
  forall k, skipn k (repeat z n) = repeat z (n - k).
Proof.
  induction n as [| n IH]; intros [| k]; simpl; try reflexivity. apply IH.
Qed.

Lemma firstn_repeat_le {A : Type} (z : A) n :
  forall m, (m <= n)%nat -> firstn m (repeat z n) = repeat z m.
Proof.
  induction n as [| n IH]; intros [| m] Hle; simpl; try reflexivity; try lia.
  rewrite IH by lia. reflexivity.
Qed.

(** [copy] into a zeroed array: truncate or pad with zeros. *)
Lemma go_copy_zeroed {A : Type} (z : A) n (src : list A) :
  go_copy (repeat z n) src = firstn n (src ++ repeat z n) /\
  length (go_copy (repeat z n) src) = n.
Proof.
  unfold go_copy. rewrite repeat_length, firstn_app, skipn_repeat_sub.
  rewrite (firstn_repeat_le z n (n - length src)) by lia.
  split; [reflexivity |].
  rewrite length_app, length_firstn, repeat_length. lia.
Qed.

Lemma groupOutput_keys outs :
  forall (m : gmap string (list Output)) k,
    is_Some (fold_left groupOutput outs m !! k) <->
    is_Some (m !! k) \/ exists out, In out outs /\ scriptStr (ControlProgram out) = k.
Proof.
  induction outs as [| out outs IH]; intros m k; simpl.
  - split; [auto | intros [H | (out & [] & _)]; exact H].
  - rewrite IH. unfold groupOutput at 1.
    destruct (decide (scriptStr (ControlProgram out) = k)) as [Heq | Hne].
    + subst k. rewrite lookup_insert_eq. split; [| eauto].
      intros _. right. exists out. auto.
    + rewrite lookup_insert_ne by exact Hne. split.
      * intros [H | (o & Ho & Hk)]; [auto | right; exists o; auto].
      * intros [H | (o & [-> | Ho] & Hk)]; [auto | contradiction | right; exists o; auto].
Qed.

Lemma scriptsOf_In (m : gmap string (list Output)) p :
  In p (scriptsOf m) <-> exists k, is_Some (m !! k) /\ p = list_byte_of_string k.
Proof.
  unfold scriptsOf. rewrite in_map_iff. split.
  - intros ([k v] & <- & Hin). exists k. split; [| reflexivity].
    exists v. apply elem_of_map_to_list. by apply list_elem_of_In.
  - intros (k & [v Hv] & ->). exists (k, v). split; [reflexivity |].
    apply list_elem_of_In. by apply elem_of_map_to_list.
Qed.

Lemma scriptsOf_NoDup (m : gmap string (list Output)) : List.NoDup (scriptsOf m).
Proof.
  unfold scriptsOf. apply NoDup_ListNoDup.
  assert (Heq : forall l : list (string * list Output),
             map (fun kv => list_byte_of_string (fst kv)) l
             = list_byte_of_string <$> l.*1).
  { induction l as [| kv l IH]; [reflexivity |]. simpl. by rewrite IH. }
  rewrite Heq. apply NoDup_fmap_2; [| apply NoDup_fst_map_to_list].
  intros a b Hab.
  rewrite <- (string_of_list_byte_of_string a), <- (string_of_list_byte_of_string b).
  by rewrite Hab.
Qed.

Lemma annotateRows_nil `{C : Collaborators} rows : annotateRows [] rows = [].
Proof. unfold annotateRows. induction rows as [| row rows IH]; [reflexivity | exact IH]. Qed.

Lemma annotateRows_cons_length `{C : Collaborators} out outs rows :
  length (annotateRows (out :: outs) rows)
  = (length (List.filter (fun row => bytes_eqb (RowProgram row) (ControlProgram out)) rows)
     + length (annotateRows outs rows))%nat.
Proof.
  unfold annotateRows. induction rows as [| row rows IH]; [reflexivity |].
  cbn [flat_map List.filter]. rewrite length_app, IH, length_map.
  unfold group. cbn [List.filter].
  destruct (bytes_eqb (RowProgram row) (ControlProgram out));
    simpl length; rewrite ?length_app, ?length_map; lia.
Qed.

Lemma matching_rows_le_one rows q :
  List.NoDup (map RowProgram rows) ->
  (length (List.filter (fun row => bytes_eqb (RowProgram row) q) rows) <= 1)%nat.
Proof.
  induction rows as [| row rows IH]; intros Hnd; simpl; [lia |].
  inversion Hnd as [| ? ? Hnotin Hnd']; subst. specialize (IH Hnd').
  destruct (bytes_eqb (RowProgram row) q) eqn:Heq; [| lia].
  apply bytes_eqb_eq in Heq. subst q. simpl.
  assert (Hnone : List.filter (fun r => bytes_eqb (RowProgram r) (RowProgram row)) rows = []).
  { destruct (List.filter _ rows) as [| r l] eqn:Hf; [reflexivity |].
    assert (Hin : In r (List.filter (fun r => bytes_eqb (RowProgram r) (RowProgram row)) rows))
      by (rewrite Hf; by left).
    apply filter_In in Hin as [Hin Hr]. apply bytes_eqb_eq in Hr.
    exfalso. apply Hnotin. rewrite <- Hr. by apply in_map. }
  rewrite Hnone. simpl. lia.
Qed.

Lemma matching_rows_ge_one rows q :
  (exists row, In row rows /\ RowProgram row = q) ->
  (1 <= length (List.filter (fun row => bytes_eqb (RowProgram row) q) rows))%nat.
Proof.
  intros (row & Hin & Hq).
  assert (H : In row (List.filter (fun row => bytes_eqb (RowProgram row) q) rows)).
  { apply filter_In. split; [exact Hin | by apply bytes_eqb_eq]. }
  destruct (List.filter _ rows); [contradiction | simpl; lia].
Qed.

Section LoadAccountInfoFurther.
Context `{C : Collaborators}.

(** X11: the batched query.  [LoadAccountInfo] issues its query on a
    list of control programs without duplicates that holds exactly the
    programs of the input outputs, and what the call returns is decided
    by the answer to that one query. *)
Theorem LoadAccountInfo_scripts (outs : list Output) (db : DB) :
  exists scripts,
    List.NoDup scripts /\
    (forall p, In p scripts <-> exists out, In out outs /\ ControlProgram out = p) /\
    fst (LoadAccountInfo outs db)
    = match snd (pg_ForQueryRows accountQuery scripts db) with
      | Some e => Err e
      | None =>
          Ok (fold_left (annotateRow (groupOutputs outs))
                        (fst (pg_ForQueryRows accountQuery scripts db)) [])
      end.
Proof.
  exists (scriptsOf (groupOutputs outs)).
  split; [apply scriptsOf_NoDup |]. split.
  - intros p. rewrite scriptsOf_In. unfold groupOutputs. split.
    + intros (k & Hk & ->). apply groupOutput_keys in Hk as [Hk | (out & Hin & <-)].
      * rewrite lookup_empty in Hk. by destruct Hk.
      * exists out. split; [exact Hin |].
        unfold scriptStr. symmetry. apply list_byte_of_string_of_list_byte.
    + intros (out & Hin & <-). exists (scriptStr (ControlProgram out)). split.
      * apply groupOutput_keys. right. eauto.
      * unfold scriptStr. symmetry. apply list_byte_of_string_of_list_byte.
  - unfold LoadAccountInfo.
    destruct (pg_ForQueryRows accountQuery (scriptsOf (groupOutputs outs)) db)
      as [rows [e |]]; reflexivity.
Qed.

(** X12: the order of the result.  A returned result lists, row by row in
    the order the rows were delivered, the input outputs whose control
    program is the row's, in input order, each annotated from that row;
    the database is left as it was. *)
Theorem LoadAccountInfo_result
    (outs : list Output) (db : DB) (result : list output) (db' : DB) :
  LoadAccountInfo outs db = (Ok result, db') ->
  result
  = flat_map
      (fun row =>
         map (annotate row)
             (List.filter (fun out => bytes_eqb (RowProgram row) (ControlProgram out)) outs))
      (fst (pg_ForQueryRows accountQuery (scriptsOf (groupOutputs outs)) db)) /\
  db' = db.
Proof.
  rewrite LoadAccountInfo_unfold.
  destruct (snd (pg_ForQueryRows accountQuery (scriptsOf (groupOutputs outs)) db));
    intros H; inversion H; subst. split; reflexivity.
Qed.

(** X13: the key index of an annotated output.  It always has the length
    of the array: it is the key index of a returned row, cut to that
    length or padded with zeros. *)
Theorem LoadAccountInfo_keyIndex
    (outs : list Output) (db : DB) (result : list output) (db' : DB) (o : output) :
  LoadAccountInfo outs db = (Ok result, db') ->
  In o result ->
  length (keyIndex o) = keyIndexLen /\
  exists row,
    In row (fst (pg_ForQueryRows accountQuery (scriptsOf (groupOutputs outs)) db)) /\
    RowProgram row = ControlProgram (AnnotatedOutput o) /\
    keyIndex o = firstn keyIndexLen (RowKeyIndex row ++ repeat 0 keyIndexLen).
Proof.
  rewrite LoadAccountInfo_unfold.
  destruct (snd (pg_ForQueryRows accountQuery (scriptsOf (groupOutputs outs)) db));
    intros H Hin; inversion H; subst. clear H.
  apply annotateRows_In in Hin as (row & out & Hrow & _ & Hprog & ->).
  simpl. pose proof (go_copy_zeroed 0 keyIndexLen (RowKeyIndex row)) as [Heq Hlen].
  split; [exact Hlen |]. exists row. auto.
Qed.

(** X14: how many outputs come back.  When the delivered rows have
    pairwise different control programs, the result is never longer than
    the input; it has exactly the length of the input when, moreover,
    every input program has a row. *)
Theorem LoadAccountInfo_length
    (outs : list Output) (db : DB) (result : list output) (db' : DB) :
  LoadAccountInfo outs db = (Ok result, db') ->
  List.NoDup
    (map RowProgram
         (fst (pg_ForQueryRows accountQuery (scriptsOf (groupOutputs outs)) db))) ->
  (length result <= length outs)%nat /\
  ((forall out, In out outs ->
      exists row,
        In row (fst (pg_ForQueryRows accountQuery (scriptsOf (groupOutputs outs)) db)) /\
        RowProgram row = ControlProgram out) ->
   length result = length outs).
Proof.
  rewrite LoadAccountInfo_unfold.
  set (rows := fst (pg_ForQueryRows accountQuery (scriptsOf (groupOutputs outs)) db)).
  destruct (snd (pg_ForQueryRows accountQuery (scriptsOf (groupOutputs outs)) db));
    intros H Hnd; inversion H; subst result db'. clear H.
  generalize rows Hnd. clear rows Hnd. intros rows Hnd.
  induction outs as [| out outs [IHle IHeq]].
  - rewrite annotateRows_nil. split; [simpl; lia | reflexivity].
  - rewrite annotateRows_cons_length.
    pose proof (matching_rows_le_one rows (ControlProgram out) Hnd) as Hle.
    split; [simpl; lia |].
    intros Hall.
    pose proof (matching_rows_ge_one rows (ControlProgram out)
                  (Hall out ltac:(by left))) as Hge.
    rewrite IHeq by (intros o Ho; apply Hall; by right). simpl. lia.
Qed.

(** X15: no input.  On an empty list of outputs the query is still
    issued, with no program at all; whatever rows come back, nothing is
    annotated: the call returns the empty result, or the error of the
    query. *)
Theorem LoadAccountInfo_nil (db : DB) :
  LoadAccountInfo [] db
  = (match snd (pg_ForQueryRows accountQuery [] db) with
     | Some e => Err e
     | None => Ok []
     end, db).
Proof.
  rewrite LoadAccountInfo_unfold.
  assert (Hs : scriptsOf (groupOutputs []) = []).
  { unfold scriptsOf, groupOutputs. simpl. by rewrite map_to_list_empty. }
  rewrite Hs, annotateRows_nil. reflexivity.
Qed.

End LoadAccountInfoFurther.

(* ===================================================================== *)
(** ** The further properties run on the fake collaborators *)
(* ===================================================================== *)

Section RunsFurther.
#[local] Existing Instance Fake.collaborators.
Import Fake.

Lemma Reserve_no_change_bucket_witness :
  utxodb_Reserve [utxodbSource reserver1 usd150] 60 (world_db exact)
    = (Ok ([utxo150], []), world_db exact) /\
  fst (Reserve reserver1 usd150 60 exact) = Ok exactResult /\
  ResultChange exactResult = [].
Proof.
  split; [reflexivity |]. split; [vm_compute; reflexivity |].
  exact (proj1 (Reserve_no_change_bucket reserver1 usd150 60 exact [utxo150]
                  (world_db exact) exactResult
                  (snd (Reserve reserver1 usd150 60 exact))
                  eq_refl ltac:(vm_compute; reflexivity))).
Defined.

Lemma Reserve_generator_untouched_witness :
  utxodb_Reserve [utxodbSource reserver1 usd150] 60 (world_db exact)
    = (Ok ([utxo150], []), world_db exact) /\
  world_rng (snd (Reserve reserver1 usd150 60 exact)) = world_rng exact.
Proof.
  split; [reflexivity |].
  apply (Reserve_generator_untouched reserver1 usd150 60 exact [utxo150] []
           (world_db exact) (fst (Reserve reserver1 usd150 60 exact))).
  - reflexivity.
  - intros change0 rest H. discriminate H.
  - apply surjective_pairing.
Defined.

Lemma Reserve_change_destinations_witness :
  utxodb_Reserve [utxodbSource reserver1 usd150] 60 (world_db scenario)
    = (Ok ([utxo200], [bucket 50]), world_db scenario) /\
  is_uint64 (ChangeAmount (bucket 50)) /\
  fst (Reserve reserver1 usd150 60 scenario) = Ok scenarioResult /\
  sumZ (changeAmounts scenarioResult) = 50.
Proof.
  assert (Hu : is_uint64 (ChangeAmount (bucket 50)))
    by (unfold is_uint64, two64; simpl; lia).
  split; [reflexivity |]. split; [exact Hu |]. split; [vm_compute; reflexivity |].
  exact (proj1 (proj2
           (Reserve_change_destinations reserver1 usd150 60 scenario [utxo200]
              (bucket 50) [] (world_db scenario) scenarioResult
              (snd (Reserve reserver1 usd150 60 scenario))
              eq_refl Hu ltac:(vm_compute; reflexivity)))).
Defined.

Lemma Reserve_item_failure_witness :
  utxodb_Reserve [utxodbSource reserver1 usd150] 60 (world_db orphaned)
    = (Ok ([utxo200; utxoOrphan; utxo150], [bucket 50]), world_db orphaned) /\
  forEach reserveItem [utxo200; utxoOrphan; utxo150] [] (world_db orphaned)
    = (Err (errors_Wrap (RootError AccountNotFound) "get account info"),
       world_db orphaned) /\
  Reserve reserver1 usd150 60 orphaned
    = (Err (errors_Wrap (RootError AccountNotFound) "get account info"),
       {| world_db := world_db orphaned; world_rng := world_rng orphaned |}).
Proof.
  assert (H : forEach reserveItem [utxo200; utxoOrphan; utxo150] [] (world_db orphaned)
              = (Err (errors_Wrap (RootError AccountNotFound) "get account info"),
                 world_db orphaned)) by (vm_compute; reflexivity).
  split; [reflexivity |]. split; [exact H |].
  exact (proj1 (Reserve_item_failure reserver1 usd150 60 orphaned
                  [utxo200; utxoOrphan; utxo150] [bucket 50] (world_db orphaned)
                  _ _ eq_refl H)).
Defined.


Lemma Reserve_panics_on_large_bucket_witness :
  utxodb_Reserve [utxodbSource reserver1 usd150] 60 (world_db hugeBucket)
    = (Ok ([utxo200], [bucket two63]), world_db hugeBucket) /\
  two63 <= ChangeAmount (bucket two63) < two64 /\
  fst (Reserve reserver1 usd150 60 hugeBucket) = Panic "invalid argument to Int63n".
Proof.
  assert (Hrange : two63 <= ChangeAmount (bucket two63) < two64)
    by (unfold two63, two64; simpl; lia).
  split; [reflexivity |]. split; [exact Hrange |].
  apply (Reserve_panics_on_large_bucket reserver1 usd150 60 hugeBucket [utxo200]
           (bucket two63) [] (world_db hugeBucket)
           (itemsOf (fst (forEach reserveItem [utxo200] [] (world_db hugeBucket))))
           (snd (forEach reserveItem [utxo200] [] (world_db hugeBucket)))).
  - reflexivity.
  - vm_compute. reflexivity.
  - exact Hrange.
  - reflexivity.
Defined.

Lemma LoadAccountInfo_result_witness :
  LoadAccountInfo [outA; outB; outC] indexDB = (Ok indexResult, indexDB) /\
  indexResult = [annotate rowP outA; annotate rowP outB].
Proof.
  assert (H : LoadAccountInfo [outA; outB; outC] indexDB = (Ok indexResult, indexDB))
    by (vm_compute; reflexivity).
  split; [exact H |].
  rewrite (proj1 (@LoadAccountInfo_result collaborators [outA; outB; outC] indexDB
                    indexResult indexDB H)).
  vm_compute. reflexivity.
Defined.

Lemma LoadAccountInfo_keyIndex_witness :
  LoadAccountInfo [outA; outB; outC] indexDB = (Ok indexResult, indexDB) /\
  In (annotate rowP outA) indexResult /\
  length (keyIndex (annotate rowP outA)) = 2%nat.
Proof.
  assert (H : LoadAccountInfo [outA; outB; outC] indexDB = (Ok indexResult, indexDB))
    by (vm_compute; reflexivity).
  assert (Hin : In (annotate rowP outA) indexResult)
    by (vm_compute; left; reflexivity).
  split; [exact H |]. split; [exact Hin |].
  exact (proj1 (@LoadAccountInfo_keyIndex collaborators [outA; outB; outC] indexDB
                  indexResult indexDB (annotate rowP outA) H Hin)).
Defined.

Lemma LoadAccountInfo_length_witness :
  LoadAccountInfo [outA; outB; outC] indexDB = (Ok indexResult, indexDB) /\
  (length indexResult <= length [outA; outB; outC])%nat.
Proof.
  assert (H : LoadAccountInfo [outA; outB; outC] indexDB = (Ok indexResult, indexDB))
    by (vm_compute; reflexivity).
  split; [exact H |].
  apply (@LoadAccountInfo_length collaborators [outA; outB; outC] indexDB
           indexResult indexDB H).
  vm_compute. constructor; [intros [] | constructor].
Defined.

End RunsFurther.
